(** * RNPDNO scraper: a shallow embedding of [master_rnpdno_metadata_and_pdfs.py]

    The development follows the layout of the Python module:

    - Python values the script relies on ([str], [int()], [str.isdigit],
      slicing, the [\w] class of [re]);
    - the helpers [sanitize_filename], [append_log], [append_metadata_row],
      [already_done], [extract_metadata_from_row];
    - [process_row], section by section (A to J as labelled in the source);
    - the row and page loops of [main].

    The browser is external: every Playwright call is answered by a script
    (a record of outcomes) and logged in a trace.  The two CSV files are kept
    as lists of rows, the output directory as a list of written files. *)

From Stdlib Require Import String Ascii.
From Stdlib Require Import List ZArith NArith Bool Lia.
Import ListNotations.

Set Implicit Arguments.

(** ** Python strings *)

(** A [str] is a sequence of Unicode code points. *)
Definition pystr := list N.

(** ASCII literals of the source. *)
Definition lit (s : string) : pystr :=
  map N_of_ascii (list_ascii_of_string s).

Fixpoint pystr_eqb (a b : pystr) : bool :=
  match a, b with
  | [], [] => true
  | x :: a', y :: b' => N.eqb x y && pystr_eqb a' b'
  | _, _ => false
  end.

(** [s[:n]] with Python's treatment of a negative bound. *)
Definition py_slice_to (A : Type) (s : list A) (n : Z) : list A :=
  if (0 <=? n)%Z then firstn (Z.to_nat n) s
  else firstn (Z.to_nat (Z.of_nat (length s) + n)) s.

Fixpoint dropwhile (A : Type) (p : A -> bool) (l : list A) : list A :=
  match l with
  | [] => []
  | x :: r => if p x then dropwhile p r else l
  end.

(** Exceptions: every class below derives from [Exception]. *)
Inductive exn_class := PlaywrightTimeoutError | PlaywrightError | ValueError | IndexError | OSError.

Record exn := mkExn { exn_kind : exn_class; exn_msg : pystr }.

(** Result of an expression that may raise. *)
Inductive outcome (A : Type) :=
| Ok (a : A)
| Exc (e : exn).
Arguments Exc {A} e.

Definition obind (A B : Type) (o : outcome A) (k : A -> outcome B) : outcome B :=
  match o with
  | Ok a => k a
  | Exc e => Exc e
  end.

(** [r[i]] for a non-negative literal index. *)
Definition py_index (A : Type) (r : list A) (i : nat) : outcome A :=
  match nth_error r i with
  | Some x => Ok x
  | None => Exc (mkExn IndexError (lit "list index out of range"))
  end.

(** ** The Unicode character database

    Code points up to U+00FF are classified here; the properties of the
    code points above are those of the interpreter's database, taken as
    a parameter. *)
Record UnicodeData := {
  ud_alnum : N -> bool;          (* Py_UNICODE_ISALNUM *)
  ud_digit : N -> bool;          (* Py_UNICODE_ISDIGIT *)
  ud_decimal : N -> option N;    (* Py_UNICODE_TODECIMAL *)
  ud_space : N -> bool           (* Py_UNICODE_ISSPACE *)
}.

(** A database that assigns nothing above U+00FF. *)
Definition latin1_only : UnicodeData :=
  {| ud_alnum := fun _ => false; ud_digit := fun _ => false;
     ud_decimal := fun _ => None; ud_space := fun _ => false |}.

Definition in_range (lo hi c : N) : bool := (lo <=? c)%N && (c <=? hi)%N.

Definition ascii_digit (c : N) : bool := in_range 48 57 c.

Definition latin1_alnum (c : N) : bool :=
  ascii_digit c || in_range 65 90 c || in_range 97 122 c
  || (c =? 170)%N || (c =? 178)%N || (c =? 179)%N || (c =? 181)%N
  || (c =? 185)%N || (c =? 186)%N || in_range 188 190 c
  || in_range 192 214 c || in_range 216 246 c || in_range 248 255 c.

Definition latin1_digit (c : N) : bool :=
  ascii_digit c || (c =? 178)%N || (c =? 179)%N || (c =? 185)%N.

Definition latin1_space (c : N) : bool :=
  in_range 9 13 c || in_range 28 32 c || (c =? 133)%N || (c =? 160)%N.

(** ** Dictionaries *)

Inductive pyval :=
| VStr (s : pystr)
| VInt (z : Z).

(** A [dict] with [str] keys, in insertion order. *)
Definition dict := list (pystr * pyval).

Fixpoint dict_get (d : dict) (k : pystr) (default : pyval) : pyval :=
  match d with
  | [] => default
  | (k', v) :: r => if pystr_eqb k' k then v else dict_get r k default
  end.

Fixpoint dict_set (d : dict) (k : pystr) (v : pyval) : dict :=
  match d with
  | [] => [(k, v)]
  | (k', v') :: r => if pystr_eqb k' k then (k', v) :: r else (k', v') :: dict_set r k v
  end.

Definition dict_update (d : dict) (kvs : list (pystr * pyval)) : dict :=
  fold_left (fun d kv => dict_set d (fst kv) (snd kv)) kvs d.

(** [d.get(k) or default] on string values. *)
Definition get_or (d : dict) (k : pystr) (default : pystr) : pystr :=
  match dict_get d k (VStr []) with
  | VStr [] => default
  | VStr s => s
  | VInt z => default
  end.

(** ** The world of a run

    Calls into the browser and pauses are logged, most recent first. *)
Inductive event :=
| Ev_query_rows            (* page.query_selector_all(ROW_SELECTOR) *)
| Ev_row_cells             (* the td texts of a row *)
| Ev_query_trigger         (* row.query_selector(MODAL_TRIGGER_SELECTOR_IN_ROW) *)
| Ev_click_trigger         (* trigger.click() *)
| Ev_wait_confidential     (* page.wait_for_selector(confidential_selector, 3000) *)
| Ev_confidential_visible  (* confidential_modal.is_visible() *)
| Ev_query_confidential_close
| Ev_click_confidential_close
| Ev_press_escape          (* page.keyboard.press("Escape") *)
| Ev_wait_popup            (* page.wait_for_selector(POPUP_SELECTOR, 20_000) *)
| Ev_wait_function         (* page.wait_for_function(..., 5000) *)
| Ev_fit_modal             (* page.evaluate(resize) *)
| Ev_new_page              (* context.new_page() *)
| Ev_outer_html            (* modal.evaluate("el => el.outerHTML") *)
| Ev_set_content           (* tmp_page.set_content *)
| Ev_wait_modal_body       (* tmp_page.wait_for_selector("div.modal-body", 15_000) *)
| Ev_body_height           (* tmp_page.evaluate(scrollHeight) *)
| Ev_fit_body              (* tmp_page.evaluate(resize) *)
| Ev_pdf                   (* tmp_page.pdf *)
| Ev_close_page            (* tmp_page.close() *)
| Ev_save_bytes            (* save_bytes(out_path, pdf_bytes) *)
| Ev_query_cerrar          (* modal.query_selector("img[alt='Cerrar']") *)
| Ev_click_cerrar          (* cb.click() *)
| Ev_query_paginator       (* page.query_selector_all(PAGINATOR_PAGE_BUTTONS_SELECTOR) *)
| Ev_button_text
| Ev_click_button
| Ev_wait_rows             (* page.wait_for_selector(ROW_SELECTOR, 10_000) *)
| Ev_sleep (ms : Z).       (* asyncio.sleep, in milliseconds *)

Record world := mkWorld {
  LOG_CSV : option (list (list pystr));       (* None: the file does not exist *)
  METADATA_CSV : option (list (list pystr));
  OUTPUT_DIR : list (pystr * list Byte.byte); (* files written, latest first *)
  open_pages : nat;                           (* temporary pages not yet closed *)
  trace : list event
}.

Definition set_log (rows : list (list pystr)) (w : world) : world :=
  mkWorld (Some rows) (METADATA_CSV w) (OUTPUT_DIR w) (open_pages w) (trace w).

Definition set_metadata (rows : list (list pystr)) (w : world) : world :=
  mkWorld (LOG_CSV w) (Some rows) (OUTPUT_DIR w) (open_pages w) (trace w).

Definition set_files (fs : list (pystr * list Byte.byte)) (w : world) : world :=
  mkWorld (LOG_CSV w) (METADATA_CSV w) fs (open_pages w) (trace w).

Definition set_open_pages (n : nat) (w : world) : world :=
  mkWorld (LOG_CSV w) (METADATA_CSV w) (OUTPUT_DIR w) n (trace w).

Definition log_event (ev : event) (w : world) : world :=
  mkWorld (LOG_CSV w) (METADATA_CSV w) (OUTPUT_DIR w) (open_pages w) (ev :: trace w).

(** ** Coroutines as state transformers

    A coroutine returns, raises, or is still running when the fuel given to
    its loops is spent. *)
Inductive result (A : Type) :=
| Ret (a : A) (w : world)
| Raise (e : exn) (w : world)
| Running.
Arguments Raise {A} e w.
Arguments Running {A}.

Definition M (A : Type) := world -> result A.

Definition ret (A : Type) (a : A) : M A := fun w => Ret a w.

Definition bind (A B : Type) (m : M A) (k : A -> M B) : M B :=
  fun w =>
    match m w with
    | Ret a w' => k a w'
    | Raise e w' => Raise e w'
    | Running => Running
    end.

Declare Scope py_scope.
Delimit Scope py_scope with py.
Notation "x <- m ;; k" := (bind m (fun x => k))
  (at level 100, m at next level, right associativity) : py_scope.
Notation "m ;; k" := (bind m (fun _ => k))
  (at level 100, right associativity) : py_scope.
Open Scope py_scope.

(** [try: m  except <classes>: h] *)
Definition try_except (A : Type) (catches : exn -> bool) (m : M A) (h : exn -> M A) : M A :=
  fun w =>
    match m w with
    | Raise e w' => if catches e then h e w' else Raise e w'
    | r => r
    end.

Definition is_timeout (e : exn) : bool :=
  match exn_kind e with
  | PlaywrightTimeoutError => true
  | _ => false
  end.

(** A call into the browser: logged, then answered by the script. *)
Definition call (A : Type) (ev : event) (answer : outcome A) : M A :=
  fun w =>
    match answer with
    | Ok a => Ret a (log_event ev w)
    | Exc e => Raise e (log_event ev w)
    end.

Definition sleep (ms : Z) : M unit := fun w => Ret tt (log_event (Ev_sleep ms) w).

Definition lift (A : Type) (o : outcome A) : M A :=
  fun w =>
    match o with
    | Ok a => Ret a w
    | Exc e => Raise e w
    end.

(** ** What the browser answers while one row is processed

    One field per call of [process_row], in the order of the source.
    [sc_heights i] is the value of the [i]-th height sample. *)
Record script := {
  sc_rows : outcome nat;                      (* len(rows) *)
  sc_cells : outcome (list (option pystr));   (* innerText of each td *)
  sc_trigger : outcome bool;                  (* trigger found? *)
  sc_trigger_again : outcome bool;
  sc_trigger_click : outcome unit;
  sc_confidential : outcome unit;
  sc_confidential_visible : outcome bool;
  sc_confidential_close : outcome bool;       (* close button found? *)
  sc_confidential_close_click : outcome unit;
  sc_confidential_escape : outcome unit;
  sc_popup : outcome unit;
  sc_wait_function : outcome unit;
  sc_fit_modal : outcome unit;
  sc_new_page : outcome unit;
  sc_outer_html : outcome unit;
  sc_set_content : outcome unit;
  sc_modal_body : outcome unit;
  sc_heights : nat -> outcome Z;
  sc_fit_body : outcome unit;
  sc_pdf : outcome (list Byte.byte);
  sc_close_page : outcome unit;
  sc_save : outcome unit;
  sc_cerrar : outcome bool;                   (* close image found? *)
  sc_cerrar_click : outcome unit;
  sc_escape : outcome unit
}.

(** A paginator button: its text and what clicking it does. *)
Record button := {
  btn_text : outcome pystr;
  btn_click : outcome unit
}.

(** What the browser answers while one page is traversed. *)
Record page_script := {
  pg_buttons : outcome (list button);
  pg_wait_rows : outcome unit;
  pg_rows : outcome nat;                      (* len(rows) *)
  pg_row : nat -> script                      (* answers during process_row *)
}.


(** ** Config *)

Definition OUTPUT_DIR_NAME : pystr := lit "rnpdno_pdfs".
Definition ROW_DELAY : Z := 120.

Definition LOG_HEADER : list pystr :=
  map lit ["page"; "row_index"; "name"; "folio"; "filename"; "api_url"; "status"; "notes"]%string.

Definition METADATA_FIELDS : list pystr :=
  map lit ["folio_unico"; "nombre"; "primer_apellido"; "segundo_apellido";
           "edad_actual"; "sexo"; "estatus_desaparicion"; "fecha_hechos";
           "entidad_hechos"; "informacion_reservada"; "boletin";
           "pdf_filename"; "api_url"; "page"; "row_index"]%string.

Section Python.

Variable UCD : UnicodeData.

Definition Py_UNICODE_ISALNUM (c : N) : bool :=
  if (c <? 256)%N then latin1_alnum c else ud_alnum UCD c.

Definition Py_UNICODE_ISDIGIT (c : N) : bool :=
  if (c <? 256)%N then latin1_digit c else ud_digit UCD c.

Definition Py_UNICODE_TODECIMAL (c : N) : option N :=
  if (c <? 256)%N then (if ascii_digit c then Some (c - 48)%N else None)
  else ud_decimal UCD c.

Definition Py_UNICODE_ISSPACE (c : N) : bool :=
  if (c <? 256)%N then latin1_space c else ud_space UCD c.

(** [\w] of [re] on a [str] pattern: alphanumeric or underscore. *)
Definition re_word (c : N) : bool := Py_UNICODE_ISALNUM c || (c =? 95)%N.

(** [re.sub] of a one-character class: every character matched by [cls]
    is replaced by [repl]. *)
Definition re_sub_class (cls : N -> bool) (repl : pystr) (s : pystr) : pystr :=
  flat_map (fun c => if cls c then repl else [c]) s.

(** [str.strip()] *)
Definition py_strip (s : pystr) : pystr :=
  rev (dropwhile Py_UNICODE_ISSPACE (rev (dropwhile Py_UNICODE_ISSPACE s))).

(** [str.isdigit()] *)
Definition isdigit (s : pystr) : bool :=
  match s with
  | [] => false
  | _ => forallb Py_UNICODE_ISDIGIT s
  end.

(** *** [str(n)] for an [int] *)

Fixpoint lsd_digits (fuel : nat) (n : N) : list N :=
  match fuel with
  | O => []
  | S f => (n mod 10)%N :: (if (n / 10 =? 0)%N then [] else lsd_digits f (n / 10)%N)
  end.

Definition str_of_N (n : N) : pystr :=
  map (fun d => (48 + d)%N) (rev (lsd_digits (S (N.to_nat (N.size n))) n)).

Definition str_of_int (z : Z) : pystr :=
  if (z <? 0)%Z then 45%N :: str_of_N (Z.abs_N z) else str_of_N (Z.abs_N z).

(** *** [int(s)] for a [str]

    The string is first brought to ASCII (white space to a blank, decimal
    digits of any script to '0'..'9', anything else above U+007E to '?'),
    then read in base 10: blanks, an optional sign, digits with single
    underscores between them, blanks.  The interpreter's optional cap on
    the number of digits is not modelled, and the [ValueError] message
    omits the quoted argument. *)
Definition to_ascii_decimal (c : N) : N :=
  if (c <? 127)%N then c
  else if Py_UNICODE_ISSPACE c then 32%N
  else match Py_UNICODE_TODECIMAL c with
       | Some d => (48 + d)%N
       | None => 63%N
       end.

Definition Py_ISSPACE (c : N) : bool := in_range 9 13 c || (c =? 32)%N.

Fixpoint read_digits (cs : list N) (acc : Z) (after_underscore : bool) : option Z :=
  match cs with
  | [] => if after_underscore then None else Some acc
  | c :: rest =>
      if ascii_digit c then read_digits rest (10 * acc + Z.of_N (c - 48)) false
      else if after_underscore then None
      else if (c =? 95)%N then read_digits rest acc true
      else if forallb Py_ISSPACE cs then Some acc
      else None
  end.

Definition long_from_string (t : list N) : option Z :=
  let t1 := dropwhile Py_ISSPACE t in
  let '(negative, t2) :=
    match t1 with
    | 45%N :: r => (true, r)
    | 43%N :: r => (false, r)
    | _ => (false, t1)
    end in
  match t2 with
  | c :: _ =>
      if ascii_digit c
      then option_map (fun v => if negative then (- v)%Z else v) (read_digits t2 0 false)
      else None
  | [] => None
  end.

Definition py_int (s : pystr) : outcome Z :=
  match long_from_string (map to_ascii_decimal s) with
  | Some z => Ok z
  | None => Exc (mkExn ValueError (lit "invalid literal for int() with base 10"))
  end.


(** ** Helpers (I/O + logging) *)

Definition DEFAULT_MAXLEN : Z := 120.

(** [sanitize_filename]: [re.sub(r"[^\w\-_\. ]", "_", s)] then [s[:maxlen]]. *)
Definition filename_char (c : N) : bool :=
  re_word c || (c =? 45)%N || (c =? 95)%N || (c =? 46)%N || (c =? 32)%N.

Definition sanitize_filename (s : pystr) (maxlen : Z) : pystr :=
  let s := re_sub_class (fun c => negb (filename_char c)) (lit "_") s in
  py_slice_to s maxlen.

(** [init_logs] *)
Definition init_logs : M unit :=
  fun w =>
    let w1 := match LOG_CSV w with
              | None => set_log [LOG_HEADER] w
              | Some _ => w
              end in
    let w2 := match METADATA_CSV w1 with
              | None => set_metadata [METADATA_FIELDS] w1
              | Some _ => w1
              end in
    Ret tt w2.

(** [append_log]: one row appended to [LOG_CSV], the file created when
    missing.  The two integers are written as [str] does.  Appending to
    either CSV file is taken not to fail. *)
Definition log_row (page_num row_idx : Z) (name folio filename api_url status notes : pystr)
  : list pystr :=
  [str_of_int page_num; str_of_int row_idx; name; folio; filename; api_url; status; notes].

Definition append_log (page_num row_idx : Z) (name folio filename api_url status notes : pystr)
  : M unit :=
  fun w =>
    let old := match LOG_CSV w with Some rows => rows | None => [] end in
    Ret tt (set_log (old ++ [log_row page_num row_idx name folio filename api_url status notes]) w).

(** [append_metadata_row]: the header is written first when the file is
    missing or empty; absent keys are written as empty strings. *)
Definition csv_field (v : pyval) : pystr :=
  match v with
  | VStr s => s
  | VInt z => str_of_int z
  end.

Definition metadata_row (meta : dict) : list pystr :=
  map (fun k => csv_field (dict_get meta k (VStr []))) METADATA_FIELDS.

Definition append_metadata_row (meta : dict) : M unit :=
  fun w =>
    let old := match METADATA_CSV w with Some rows => rows | None => [] end in
    let write_header := match old with [] => true | _ => false end in
    Ret tt (set_metadata
              (old ++ (if write_header then [METADATA_FIELDS] else []) ++ [metadata_row meta]) w).

(** [already_done], on the rows [csv.reader] yields. *)
Definition log_row_matches (page_num row_idx : Z) (r : list pystr) : outcome bool :=
  obind (py_index r 0) (fun r0 =>
  obind (py_int r0) (fun p =>
  if negb (p =? page_num)%Z then Ok false else
  obind (py_index r 1) (fun r1 =>
  obind (py_int r1) (fun i =>
  if negb (i =? row_idx)%Z then Ok false else
  obind (py_index r 6) (fun r6 =>
  Ok (pystr_eqb r6 (lit "success"))))))).

Fixpoint already_done_scan (page_num row_idx : Z) (rows : list (list pystr)) : outcome bool :=
  match rows with
  | [] => Ok false
  | r :: rest =>
      if (7 <=? length r)%nat && isdigit (nth 0 r [])
      then match log_row_matches page_num row_idx r with
           | Ok true => Ok true
           | Ok false => already_done_scan page_num row_idx rest
           | Exc _ => already_done_scan page_num row_idx rest
           end
      else already_done_scan page_num row_idx rest
  end.

Definition already_done (page_num row_idx : Z) (log : option (list (list pystr))) : outcome bool :=
  match log with
  | None => Ok false
  | Some rows => already_done_scan page_num row_idx rows
  end.

(** [save_bytes]: the file is written when the call succeeds; a call that
    raises is taken to leave no file. *)
Definition save_bytes (path : pystr) (data : list Byte.byte) (answer : outcome unit) : M unit :=
  call Ev_save_bytes answer ;;
  (fun w => Ret tt (set_files ((path, data) :: OUTPUT_DIR w) w)).

(** ** Helpers: extraction *)

Definition EMPTY_META : dict :=
  map (fun k => (k, VStr [])) (firstn 11 METADATA_FIELDS).

Fixpoint assign_cells (keys : list pystr) (values : list pystr) (meta : dict) : dict :=
  match keys, values with
  | k :: keys', v :: values' => assign_cells keys' values' (dict_set meta k (VStr v))
  | _, _ => meta
  end.

Definition extract_metadata_from_row (cells : outcome (list (option pystr))) : M dict :=
  try_except (fun _ => true)
    (tds <- call Ev_row_cells cells ;;
     let values := map (fun txt => py_strip (match txt with Some t => t | None => [] end)) tds in
     ret (assign_cells (firstn 11 METADATA_FIELDS) values EMPTY_META))
    (fun _ => ret EMPTY_META).

(** ** Response capture helper *)

(** A value built by [json.loads]; of a float only its being zero matters
    to the code. *)
#[local] Unset Elimination Schemes.
Inductive json :=
| JNull
| JBool (b : bool)
| JInt (z : Z)
| JFloat (is_zero : bool)
| JStr (s : pystr)
| JList (items : list json)
| JDict (items : list (pystr * json)).
#[local] Set Elimination Schemes.

(** Truth value of such an object, as [if obj:] tests it. *)
Definition json_truthy (o : json) : bool :=
  match o with
  | JNull => false
  | JBool b => b
  | JInt z => negb (z =? 0)%Z
  | JFloat is_zero => negb is_zero
  | JStr s => match s with [] => false | _ => true end
  | JList items => match items with [] => false | _ => true end
  | JDict items => match items with [] => false | _ => true end
  end.

(** [needle in hay] for two strings. *)
Fixpoint py_startswith (hay needle : pystr) : bool :=
  match needle, hay with
  | [], _ => true
  | c :: needle', d :: hay' => (c =? d)%N && py_startswith hay' needle'
  | _ :: _, [] => false
  end.

Fixpoint py_contains (needle hay : pystr) : bool :=
  py_startswith hay needle
  || match hay with
     | [] => false
     | _ :: hay' => py_contains needle hay'
     end.

(** The class [[A-Za-z0-9+/=\s]]. *)
Definition base64_char (c : N) : bool :=
  in_range 65 90 c || in_range 97 122 c || ascii_digit c
  || (c =? 43)%N || (c =? 47)%N || (c =? 61)%N || Py_UNICODE_ISSPACE c.

(** [len(s) > 200 and re.match(r"^[A-Za-z0-9+/=\s]+$", s)] *)
Definition b64_candidate (s : pystr) : bool :=
  (200 <? length s)%nat && forallb base64_char s.

(** [find_b64]: the first long base64 string, strings stripped, the
    values of a dict and the items of a list searched in order. *)
Fixpoint find_b64 (o : json) : option pystr :=
  match o with
  | JStr s =>
      let s := py_strip s in
      if b64_candidate s then Some s else None
  | JDict items =>
      (fix values (l : list (pystr * json)) : option pystr :=
         match l with
         | [] => None
         | (_, v) :: rest =>
             match find_b64 v with
             | Some r => Some r
             | None => values rest
             end
         end) items
  | JList items =>
      (fix elements (l : list json) : option pystr :=
         match l with
         | [] => None
         | v :: rest =>
             match find_b64 v with
             | Some r => Some r
             | None => elements rest
             end
         end) items
  | _ => None
  end.

(** What the code reads of a Playwright [Response]. *)
Record response := {
  resp_status : Z;
  resp_content_type : option pystr;           (* headers.get("content-type") *)
  resp_body : outcome (list Byte.byte);       (* await resp.body() *)
  resp_text : outcome pystr                   (* await resp.text() *)
}.

Section Decoders.

(** The two library decoders are taken as given. *)
Variable json_loads : pystr -> outcome json.
Variable b64decode : pystr -> outcome (list Byte.byte).

Definition capture_pdf_from_response (resp : option response)
  : outcome (option (list Byte.byte)) :=
  let body :=
    match resp with
    | None => Ok None
    | Some resp =>
        let ct := match resp_content_type resp with Some ct => ct | None => [] end in
        if negb (resp_status resp =? 200)%Z then Ok None
        else if py_contains (lit "application/pdf") ct then
          obind (resp_body resp) (fun b => Ok (Some b))
        else if py_contains (lit "json") ct || py_contains (lit "application/json") ct then
          obind (resp_text resp) (fun txt =>
            let obj := match json_loads txt with Ok o => Some o | Exc _ => None end in
            match obj with
            | Some o =>
                if json_truthy o then
                  match find_b64 o with
                  | Some b64 =>
                      match b64decode b64 with
                      | Ok data => Ok (Some data)
                      | Exc _ => Ok None
                      end
                  | None => Ok None
                  end
                else Ok None
            | None => Ok None
            end)
        else Ok None
    end in
  match body with
  | Ok r => Ok r
  | Exc _ => Ok None
  end.

End Decoders.

(** ** Core: processing a row *)

(** [meta.update({"pdf_filename": .., "api_url": "", "page": .., "row_index": ..})] *)
Definition with_result (meta : dict) (pdf_filename : pystr) (page_num row_idx : Z) : dict :=
  dict_update meta
    [(lit "pdf_filename", VStr pdf_filename); (lit "api_url", VStr []);
     (lit "page", VInt page_num); (lit "row_index", VInt row_idx)].

(** The three lines every early error exit shares. *)
Definition log_error_with_metadata (page_num row_idx : Z) (name_text folio : pystr)
    (meta : dict) (notes : pystr) : M unit :=
  append_log page_num row_idx name_text folio [] [] (lit "error") notes ;;
  append_metadata_row (with_result meta [] page_num row_idx).

(** C) Click modal trigger.  [Some r]: the function returns [r]. *)
Definition click_modal_trigger (sc : script) (page_num row_idx : Z) (name_text folio : pystr)
    (meta : dict) : M (option (pystr * pystr)) :=
  try_except (fun _ => true)
    (trigger <- call Ev_query_trigger (sc_trigger sc) ;;
     trigger <- (if trigger : bool then ret true
                 else call Ev_query_trigger (sc_trigger_again sc)) ;;
     if trigger : bool then
       call Ev_click_trigger (sc_trigger_click sc) ;;
       ret None
     else
       log_error_with_metadata page_num row_idx name_text folio meta
         (lit "modal_trigger_not_found") ;;
       ret (Some (lit "error", lit "modal_trigger_not_found")))
    (fun e =>
       log_error_with_metadata page_num row_idx name_text folio meta
         (lit "modal_click_failed:" ++ exn_msg e) ;;
       ret (Some (lit "error", lit "modal_click_failed:" ++ exn_msg e))).

(** D) Detect CONFIDENTIAL modal. *)
Definition detect_confidential (sc : script) (page_num row_idx : Z) (name_text folio : pystr)
    (meta : dict) : M (option (pystr * pystr)) :=
  try_except is_timeout
    (call Ev_wait_confidential (sc_confidential sc) ;;
     visible <- call Ev_confidential_visible (sc_confidential_visible sc) ;;
     if visible : bool then
       try_except (fun _ => true)
         (close_btn <- call Ev_query_confidential_close (sc_confidential_close sc) ;;
          if close_btn : bool
          then call Ev_click_confidential_close (sc_confidential_close_click sc)
          else call Ev_press_escape (sc_confidential_escape sc))
         (fun _ => ret tt) ;;
       append_log page_num row_idx name_text folio [] [] (lit "confidential")
         (lit "record_confidential") ;;
       append_metadata_row (with_result meta [] page_num row_idx) ;;
       sleep ROW_DELAY ;;
       ret (Some (lit "confidential", lit "no_pdf"))
     else ret None)
    (fun _ => ret None).

(** E) Wait for normal modal. *)
Definition wait_normal_modal (sc : script) (page_num row_idx : Z) (name_text folio : pystr)
    (meta : dict) : M (option (pystr * pystr)) :=
  try_except is_timeout
    (call Ev_wait_popup (sc_popup sc) ;;
     ret None)
    (fun _ =>
       log_error_with_metadata page_num row_idx name_text folio meta
         (lit "modal_not_visible") ;;
       ret (Some (lit "error", lit "modal_not_visible"))).

(** F) Wait for modal content to finish rendering. *)
Definition wait_modal_content (sc : script) : M unit :=
  try_except (fun _ => true)
    (call Ev_wait_function (sc_wait_function sc) ;;
     sleep 4000)
    (fun _ => sleep 4000).

(** G) Resize modal to fit content. *)
Definition resize_modal (sc : script) : M unit :=
  try_except (fun _ => true)
    (call Ev_fit_modal (sc_fit_modal sc) ;;
     sleep 3000)
    (fun _ => ret tt).

(** The loop of H.2: [while stable_count < 3: ...]. *)
Fixpoint wait_height_stable (fuel : nat) (heights : nat -> outcome Z) (i : nat)
    (last_height stable_count : Z) : M unit :=
  if (stable_count <? 3)%Z then
    match fuel with
    | O => fun _ => Running
    | S fuel' =>
        height <- call Ev_body_height (heights i) ;;
        let '(last_height', stable_count') :=
          if (height =? last_height)%Z then (last_height, (stable_count + 1)%Z)
          else (height, 0%Z) in
        sleep 300 ;;
        wait_height_stable fuel' heights (S i) last_height' stable_count'
    end
  else ret tt.

Definition new_page (answer : outcome unit) : M unit :=
  call Ev_new_page answer ;;
  (fun w => Ret tt (set_open_pages (S (open_pages w)) w)).

Definition close_page (answer : outcome unit) : M unit :=
  call Ev_close_page answer ;;
  (fun w => Ret tt (set_open_pages (pred (open_pages w)) w)).

(** H) Capture PDF via CDP on a temporary page with only the modal.
    The value is [pdf_bytes]. *)
Definition capture_pdf (fuel : nat) (sc : script) (page_num row_idx : Z)
    (name_text folio : pystr) : M (option (list Byte.byte)) :=
  try_except (fun _ => true)
    (new_page (sc_new_page sc) ;;
     call Ev_outer_html (sc_outer_html sc) ;;
     call Ev_set_content (sc_set_content sc) ;;
     try_except is_timeout
       (call Ev_wait_modal_body (sc_modal_body sc) ;;
        wait_height_stable fuel (sc_heights sc) 0 0 0)
       (fun _ =>
          append_log page_num row_idx name_text folio [] [] (lit "warning")
            (lit "modal_content_may_not_be_fully_loaded")) ;;
     call Ev_fit_body (sc_fit_body sc) ;;
     pdf_bytes <- call Ev_pdf (sc_pdf sc) ;;
     close_page (sc_close_page sc) ;;
     ret (Some pdf_bytes))
    (fun e =>
       append_log page_num row_idx name_text folio [] [] (lit "error")
         (lit "pdf_generation_failed:" ++ exn_msg e) ;;
       ret None).

(** I) Save PDF.  The value is [status]. *)
Definition save_pdf (sc : script) (page_num row_idx : Z) (name_text folio : pystr)
    (meta : dict) (out_path : pystr) (pdf_bytes : option (list Byte.byte)) : M pystr :=
  match pdf_bytes with
  | Some (b :: bs) =>
      try_except (fun _ => true)
        (save_bytes out_path (b :: bs) (sc_save sc) ;;
         append_log page_num row_idx name_text folio out_path [] (lit "success") [] ;;
         append_metadata_row (with_result meta out_path page_num row_idx) ;;
         ret (lit "success"))
        (fun e =>
           append_log page_num row_idx name_text folio [] [] (lit "error")
             (lit "write_failed:" ++ exn_msg e) ;;
           ret (lit "error"))
  | _ =>
      append_log page_num row_idx name_text folio [] [] (lit "error") (lit "no_pdf_bytes") ;;
      ret (lit "error")
  end.

(** J) Close modal. *)
Definition close_modal (sc : script) : M unit :=
  try_except (fun _ => true)
    (cb <- call Ev_query_cerrar (sc_cerrar sc) ;;
     if cb : bool
     then call Ev_click_cerrar (sc_cerrar_click sc)
     else call Ev_press_escape (sc_escape sc))
    (fun _ => ret tt).

(** [rows[row_idx]], reached only when [row_idx < len(rows)]. *)
Definition select_row (nrows : nat) (row_idx : Z) : outcome unit :=
  if (row_idx <? - Z.of_nat nrows)%Z
  then Exc (mkExn IndexError (lit "list index out of range"))
  else Ok tt.

Definition process_row (fuel : nat) (sc : script) (page_num row_idx : Z) (dry_run : bool)
  : M (pystr * pystr) :=
  (* A) row already done? *)
  done <- (fun w => lift (already_done page_num row_idx (LOG_CSV w)) w) ;;
  if done : bool then ret (lit "skipped", lit "already_logged") else
  nrows <- call Ev_query_rows (sc_rows sc) ;;
  if (Z.of_nat nrows <=? row_idx)%Z then ret (lit "error", lit "row_index_out_of_bounds") else
  lift (select_row nrows row_idx) ;;
  (* B) extract metadata from row *)
  meta <- extract_metadata_from_row (sc_cells sc) ;;
  let name_text := get_or meta (lit "nombre") (lit "unknown") in
  let folio := get_or meta (lit "folio_unico") [] in
  let safe_label := sanitize_filename (name_text ++ lit "_" ++ folio) DEFAULT_MAXLEN in
  (* str(OUTPUT_DIR / f"{safe_label}.pdf"), with the POSIX separator *)
  let out_path := OUTPUT_DIR_NAME ++ lit "/" ++ safe_label ++ lit ".pdf" in
  r <- click_modal_trigger sc page_num row_idx name_text folio meta ;;
  match r with Some early => ret early | None =>
  r <- detect_confidential sc page_num row_idx name_text folio meta ;;
  match r with Some early => ret early | None =>
  r <- wait_normal_modal sc page_num row_idx name_text folio meta ;;
  match r with Some early => ret early | None =>
  wait_modal_content sc ;;
  resize_modal sc ;;
  pdf_bytes <- capture_pdf fuel sc page_num row_idx name_text folio ;;
  status <- save_pdf sc page_num row_idx name_text folio meta out_path pdf_bytes ;;
  close_modal sc ;;
  sleep ROW_DELAY ;;
  ret (status, lit "done")
  end end end.

(** ** Pagination helper *)

(** [get_total_pages], on the texts of the paginator buttons. *)
Fixpoint max_page_of (btns : list (outcome pystr)) (max_page : Z) : M Z :=
  match btns with
  | [] => ret max_page
  | b :: rest =>
      txt <- call Ev_button_text b ;;
      let txt := py_strip txt in
      if isdigit txt then
        iv <- lift (py_int txt) ;;
        max_page_of rest (if (max_page <? iv)%Z then iv else max_page)
      else max_page_of rest max_page
  end.

Definition get_total_pages (buttons : outcome (list (outcome pystr))) : M Z :=
  try_except (fun _ => true)
    (btns <- call Ev_query_paginator buttons ;;
     max_page_of btns 1)
    (fun _ => ret 1%Z).

(** ** Main *)

(** The paginator loop of [main]: click the button labelled [pnum]. *)
Fixpoint click_page_button (btns : list button) (pnum : Z) : M unit :=
  match btns with
  | [] => ret tt
  | b :: rest =>
      txt <- call Ev_button_text (btn_text b) ;;
      let txt := py_strip txt in
      matches <- (if isdigit txt
                  then (iv <- lift (py_int txt) ;; ret (iv =? pnum)%Z)
                  else ret false) ;;
      if matches : bool then
        call Ev_click_button (btn_click b) ;;
        sleep 1000
      else click_page_button rest pnum
  end.

Definition goto_page (pg : page_script) (pnum : Z) : M unit :=
  if (pnum =? 1)%Z then ret tt
  else
    try_except (fun _ => true)
      (btns <- call Ev_query_paginator (pg_buttons pg) ;;
       click_page_button btns pnum)
      (fun _ => ret tt).

(** One turn of [for r_idx in range(nrows)]. *)
Definition main_row (fuel : nat) (sc : script) (pnum : Z) (r_idx : nat) (dry_run : bool)
  : M unit :=
  try_except (fun _ => true)
    (process_row fuel sc pnum (Z.of_nat r_idx) dry_run ;;
     ret tt)
    (fun e =>
       append_log pnum (Z.of_nat r_idx) [] [] [] [] (lit "error")
         (lit "unhandled:" ++ exn_msg e)).

(** [for r_idx in range(nrows)], from [r_idx] on with [todo] rows left. *)
Fixpoint main_rows (fuel : nat) (pg : page_script) (pnum : Z) (r_idx todo : nat)
    (dry_run : bool) : M unit :=
  match todo with
  | O => ret tt
  | S todo' =>
      main_row fuel (pg_row pg r_idx) pnum r_idx dry_run ;;
      main_rows fuel pg pnum (S r_idx) todo' dry_run
  end.

(** The body of [for pnum in range(args.start_page, endp + 1)]. *)
Definition main_page (fuel : nat) (pg : page_script) (pnum : Z) (dry_run : bool)
    (page_delay : Z) : M unit :=
  goto_page pg pnum ;;
  try_except is_timeout
    (call Ev_wait_rows (pg_wait_rows pg))
    (fun _ => ret tt) ;;
  nrows <- call Ev_query_rows (pg_rows pg) ;;
  main_rows fuel pg pnum 0 nrows dry_run ;;
  sleep page_delay.

Fixpoint main_pages (fuel : nat) (site : Z -> page_script) (pnums : list Z) (dry_run : bool)
    (page_delay : Z) : M unit :=
  match pnums with
  | [] => ret tt
  | pnum :: rest =>
      main_page fuel (site pnum) pnum dry_run page_delay ;;
      main_pages fuel site rest dry_run page_delay
  end.


(** ** Vocabulary of the statements *)

(** Value of a list of decimal digits, least significant first. *)
Definition lsd_value (ds : list N) : N := fold_right (fun d acc => (d + 10 * acc)%N) 0%N ds.

(** The digits [str] writes, most significant first. *)
Definition decimal_digits (n : N) : list N :=
  rev (lsd_digits (S (N.to_nat (N.size n))) n).

(** A ledger entry, as the arguments of one [append_log] call. *)
Record log_entry := {
  le_page : Z;
  le_row : Z;
  le_name : pystr;
  le_folio : pystr;
  le_filename : pystr;
  le_api_url : pystr;
  le_status : pystr;
  le_notes : pystr
}.

Definition entry_row (e : log_entry) : list pystr :=
  log_row (le_page e) (le_row e) (le_name e) (le_folio e) (le_filename e)
    (le_api_url e) (le_status e) (le_notes e).

(** The entry records a success for the key. *)
Definition success_for (page_num row_idx : Z) (e : log_entry) : Prop :=
  le_page e = page_num /\ le_row e = row_idx /\ le_status e = lit "success".

Definition success_forb (page_num row_idx : Z) (e : log_entry) : bool :=
  (le_page e =? page_num)%Z && (le_row e =? row_idx)%Z
  && pystr_eqb (le_status e) (lit "success").

(** A row that the resume scan does not look into. *)
Definition ignored_row (r : list pystr) : Prop :=
  (length r < 7)%nat \/ isdigit (nth 0 r []) = false.

(** Nothing but the browser trace differs between the two worlds. *)
Definition quiet (w w' : world) : Prop :=
  LOG_CSV w' = LOG_CSV w /\ METADATA_CSV w' = METADATA_CSV w
  /\ OUTPUT_DIR w' = OUTPUT_DIR w /\ open_pages w' = open_pages w.

(** The metadata file after one [append_metadata_row]. *)
Definition metadata_after (old : option (list (list pystr))) (row : list pystr)
  : list (list pystr) :=
  let rows := match old with Some rows => rows | None => [] end in
  rows ++ (if match rows with [] => true | _ => false end then [METADATA_FIELDS] else [])
       ++ [row].

(** Exactly one metadata row, that of [meta], was appended. *)
Definition one_metadata_row (w w' : world) (meta : dict) : Prop :=
  METADATA_CSV w' = Some (metadata_after (METADATA_CSV w) (metadata_row meta)).

(** The events of one attempt to close a dialog, most recent first: the
    query for the close control, then a click on it or the Escape key
    (nothing when the query itself raised). *)
Definition close_attempt (tr : list event) : Prop :=
  In tr [[Ev_query_cerrar];
         [Ev_click_cerrar; Ev_query_cerrar];
         [Ev_press_escape; Ev_query_cerrar];
         [Ev_query_confidential_close];
         [Ev_click_confidential_close; Ev_query_confidential_close];
         [Ev_press_escape; Ev_query_confidential_close]].

(** Both ways out of a coroutine preserve [I]. *)
Definition keeps (A : Type) (I : world -> Prop) (m : M A) : Prop :=
  forall w, I w ->
    match m w with
    | Ret _ w' => I w'
    | Raise _ w' => I w'
    | Running => True
    end.

(** The last things done were a close attempt and the pause between rows. *)
Definition closed_and_paced (w' : world) : Prop :=
  exists closing before,
    close_attempt closing /\ trace w' = Ev_sleep ROW_DELAY :: closing ++ before.

(** How one call of [process_row] that returns [out] changed the world. *)
Inductive row_outcome (p r : Z) (w : world) : pystr * pystr -> world -> Prop :=
| ro_skipped :
    row_outcome p r w (lit "skipped", lit "already_logged") w
| ro_out_of_bounds w' :
    quiet w w' ->
    row_outcome p r w (lit "error", lit "row_index_out_of_bounds") w'
| ro_early_error out meta w' :
    out = (lit "error", lit "modal_trigger_not_found")
    \/ (exists msg, out = (lit "error", lit "modal_click_failed:" ++ msg))
    \/ out = (lit "error", lit "modal_not_visible") ->
    one_metadata_row w w' (with_result meta [] p r) ->
    row_outcome p r w out w'
| ro_confidential meta w' :
    one_metadata_row w w' (with_result meta [] p r) ->
    closed_and_paced w' ->
    row_outcome p r w (lit "confidential", lit "no_pdf") w'
| ro_success meta out_path w' :
    one_metadata_row w w' (with_result meta out_path p r) ->
    closed_and_paced w' ->
    row_outcome p r w (lit "success", lit "done") w'
| ro_capture_error w' :
    METADATA_CSV w' = METADATA_CSV w ->
    closed_and_paced w' ->
    row_outcome p r w (lit "error", lit "done") w'.

(** *** The page loop *)


(** *** Answers to the close attempts *)

Record close_answers := {
  ca_confidential_close : outcome bool;
  ca_confidential_close_click : outcome unit;
  ca_confidential_escape : outcome unit;
  ca_cerrar : outcome bool;
  ca_cerrar_click : outcome unit;
  ca_escape : outcome unit
}.

(** The script [sc] with other answers to the close attempts. *)
Definition with_close_answers (sc : script) (ca : close_answers) : script :=
  {| sc_rows := sc_rows sc;
     sc_cells := sc_cells sc;
     sc_trigger := sc_trigger sc;
     sc_trigger_again := sc_trigger_again sc;
     sc_trigger_click := sc_trigger_click sc;
     sc_confidential := sc_confidential sc;
     sc_confidential_visible := sc_confidential_visible sc;
     sc_confidential_close := ca_confidential_close ca;
     sc_confidential_close_click := ca_confidential_close_click ca;
     sc_confidential_escape := ca_confidential_escape ca;
     sc_popup := sc_popup sc;
     sc_wait_function := sc_wait_function sc;
     sc_fit_modal := sc_fit_modal sc;
     sc_new_page := sc_new_page sc;
     sc_outer_html := sc_outer_html sc;
     sc_set_content := sc_set_content sc;
     sc_modal_body := sc_modal_body sc;
     sc_heights := sc_heights sc;
     sc_fit_body := sc_fit_body sc;
     sc_pdf := sc_pdf sc;
     sc_close_page := sc_close_page sc;
     sc_save := sc_save sc;
     sc_cerrar := ca_cerrar ca;
     sc_cerrar_click := ca_cerrar_click ca;
     sc_escape := ca_escape ca |}.

(** Two results with the same value (or exception) and the same files. *)
Definition agree (A : Type) (r1 r2 : result A) : Prop :=
  match r1, r2 with
  | Ret a1 w1, Ret a2 w2 => a1 = a2 /\ quiet w1 w2
  | Raise e1 w1, Raise e2 w2 => e1 = e2 /\ quiet w1 w2
  | Running, Running => True
  | _, _ => False
  end.

(** *** Sampling of the modal height *)

(** The sample before sample [n]; the loop starts from height 0. *)
Definition previous_sample (heights : nat -> Z) (n : nat) : Z :=
  match n with
  | O => 0%Z
  | S m => heights m
  end.

(** The counter as the specification words it: the number of consecutive
    samples equal to the sample before them, back to zero on any change;
    [counter_after heights n] is its value once [n] samples are taken. *)
Fixpoint counter_after (heights : nat -> Z) (n : nat) : Z :=
  match n with
  | O => 0%Z
  | S m =>
      if (heights m =? previous_sample heights m)%Z
      then (counter_after heights m + 1)%Z
      else 0%Z
  end.

(** The world once [n] more samples are taken, each followed by its pause. *)
Fixpoint sampled (n : nat) (w : world) : world :=
  match n with
  | O => w
  | S m => log_event (Ev_sleep 300) (log_event Ev_body_height (sampled m w))
  end.

Definition measured (heights : nat -> Z) : nat -> outcome Z := fun i => Ok (heights i).

(** The wait ends with the sample of index [k]: [k + 1] samples make the
    loop return, [k] samples leave it running. *)
Definition stabilizes_at (heights : nat -> Z) (k : nat) : Prop :=
  forall w,
    wait_height_stable (S k) (measured heights) 0 0 0 w = Ret tt (sampled (S k) w)
    /\ wait_height_stable k (measured heights) 0 0 0 w = Running.

Definition example_heights : nat -> Z :=
  fun i => nth i [10; 10; 10; 20; 20; 20; 20]%Z 0%Z.

(** A body that is one pixel taller at every sample. *)
Definition growing_heights : nat -> Z := fun i => (Z.of_nat i + 1)%Z.

(** *** Sample rows, pages and worlds *)

(** The world a result leaves behind. *)
Definition world_of (A : Type) (r : result A) (w : world) : world :=
  match r with
  | Ret _ w' => w'
  | Raise _ w' => w'
  | Running => w
  end.

Definition PDF_BYTES : list Byte.byte := [Byte.x25; Byte.x50; Byte.x44; Byte.x46].

(** A row "F1 | Ana" whose dialog is not confidential; the answers that
    vary between the samples are parameters. *)
Definition modal_script (rows : outcome nat) (popup : outcome unit)
    (heights : nat -> outcome Z) (pdf : outcome (list Byte.byte)) : script :=
  {| sc_rows := rows;
     sc_cells := Ok [Some (lit "F1"); Some (lit "Ana")];
     sc_trigger := Ok true;
     sc_trigger_again := Ok true;
     sc_trigger_click := Ok tt;
     sc_confidential := Exc (mkExn PlaywrightTimeoutError (lit "Timeout 3000ms exceeded."));
     sc_confidential_visible := Ok false;
     sc_confidential_close := Ok true;
     sc_confidential_close_click := Ok tt;
     sc_confidential_escape := Ok tt;
     sc_popup := popup;
     sc_wait_function := Ok tt;
     sc_fit_modal := Ok tt;
     sc_new_page := Ok tt;
     sc_outer_html := Ok tt;
     sc_set_content := Ok tt;
     sc_modal_body := Ok tt;
     sc_heights := heights;
     sc_fit_body := Ok tt;
     sc_pdf := pdf;
     sc_close_page := Ok tt;
     sc_save := Ok tt;
     sc_cerrar := Ok true;
     sc_cerrar_click := Ok tt;
     sc_escape := Ok tt |}.

Definition target_closed : exn := mkExn PlaywrightError (lit "Target closed").

(** Everything goes well: the body is 640 pixels high from the start. *)
Definition calm_script : script :=
  modal_script (Ok 1%nat) (Ok tt) (fun _ => Ok 640%Z) (Ok PDF_BYTES).

(** [tmp_page.pdf] raises. *)
Definition pdf_fails_script : script :=
  modal_script (Ok 1%nat) (Ok tt) (fun _ => Ok 640%Z) (Exc target_closed).

(** The body never stops growing. *)
Definition growing_script : script :=
  modal_script (Ok 1%nat) (Ok tt) (measured growing_heights) (Ok PDF_BYTES).

(** The dialog does not show within 20 seconds. *)
Definition no_popup_script : script :=
  modal_script (Ok 1%nat)
    (Exc (mkExn PlaywrightTimeoutError (lit "Timeout 20000ms exceeded.")))
    (fun _ => Ok 640%Z) (Ok PDF_BYTES).


Definition page_of (nrows : nat) (sc : script) : page_script :=
  {| pg_buttons := Ok []; pg_wait_rows := Ok tt; pg_rows := Ok nrows; pg_row := fun _ => sc |}.


(** The world right after [init_logs] in an empty directory. *)
Definition fresh_world : world :=
  mkWorld (Some [LOG_HEADER]) (Some [METADATA_FIELDS]) [] 0 [].

(** The success entry of row 0 of page 1, and the world of a later run. *)
Definition done_entry : log_entry :=
  {| le_page := 1; le_row := 0; le_name := lit "Ana"; le_folio := lit "F1";
     le_filename := lit "rnpdno_pdfs/Ana_F1.pdf"; le_api_url := [];
     le_status := lit "success"; le_notes := [] |}.

Definition resumed_world : world :=
  mkWorld (Some ([LOG_HEADER] ++ map entry_row [done_entry]))
          (Some [METADATA_FIELDS;
                 metadata_row
                   (with_result
                      (assign_cells (firstn 11 METADATA_FIELDS) [lit "F1"; lit "Ana"] EMPTY_META)
                      (lit "rnpdno_pdfs/Ana_F1.pdf") 1 0)])
          [(lit "rnpdno_pdfs/Ana_F1.pdf", PDF_BYTES)] 0 [].

(** The name used in the sanitization example, and its expected label. *)
Definition maria_perez : pystr :=
  lit "Mar" ++ [237%N] ++ lit "a/P" ++ [233%N] ++ lit "rez*2024".

Definition maria_perez_label : pystr :=
  lit "Mar" ++ [237%N] ++ lit "a_P" ++ [233%N] ++ lit "rez_2024".

(** *** Further vocabulary *)

(** The rows of a CSV file, none when the file is missing. *)
Definition rows_of (file : option (list (list pystr))) : list (list pystr) :=
  match file with
  | Some rows => rows
  | None => []
  end.






(** Both CSV files of [w'] start with the rows they had in [w]. *)
Definition append_only (w w' : world) : Prop :=
  (exists more, rows_of (LOG_CSV w') = rows_of (LOG_CSV w) ++ more)
  /\ (exists more, rows_of (METADATA_CSV w') = rows_of (METADATA_CSV w) ++ more).


(** The text [extract_metadata_from_row] keeps of cell [i]. *)
Definition cell_text (tds : list (option pystr)) (i : nat) : pystr :=
  match nth_error tds i with
  | Some (Some txt) => py_strip txt
  | _ => []
  end.

(** The strings of a JSON value, in the order [find_b64] meets them. *)
Fixpoint json_strings (o : json) : list pystr :=
  match o with
  | JStr s => [s]
  | JDict items =>
      (fix values (l : list (pystr * json)) : list pystr :=
         match l with
         | [] => []
         | (_, v) :: rest => json_strings v ++ values rest
         end) items
  | JList items =>
      (fix elements (l : list json) : list pystr :=
         match l with
         | [] => []
         | v :: rest => json_strings v ++ elements rest
         end) items
  | _ => []
  end.

(** The page number a paginator label stands for, if any. *)
Definition label_page (txt : pystr) : option Z :=
  if isdigit (py_strip txt)
  then match py_int (py_strip txt) with Ok n => Some n | Exc _ => None end
  else None.

(** A label the loops over the paginator read without raising. *)
Definition readable_label (b : outcome pystr) : Prop :=
  exists txt, b = Ok txt
              /\ (isdigit (py_strip txt) = true -> exists n, py_int (py_strip txt) = Ok n).


(** A page whose rows cannot be listed: the target is gone. *)
Definition unlisted_page : page_script :=
  {| pg_buttons := Ok []; pg_wait_rows := Ok tt; pg_rows := Exc target_closed;
     pg_row := fun _ => calm_script |}.

(** A paginator with the pages 1 and 2 and an arrow. *)
Definition two_page_paginator : list (outcome pystr) :=
  [Ok (lit "1"); Ok (lit " 2 "); Ok (lit ">")].

(** A response that carries the document itself, and one that is refused. *)
Definition pdf_response : response :=
  {| resp_status := 200; resp_content_type := Some (lit "application/pdf");
     resp_body := Ok PDF_BYTES; resp_text := Exc (mkExn ValueError (lit "not text")) |}.

Definition refused_response : response :=
  {| resp_status := 403; resp_content_type := Some (lit "application/pdf");
     resp_body := Ok PDF_BYTES; resp_text := Ok [] |}.

(** * Properties *)

(** ** Strings and numbers *)

Lemma pystr_eqb_eq (a b : pystr) : pystr_eqb a b = true <-> a = b.
Proof.
  revert b; induction a as [|x a IH]; intros [|y b]; simpl; split; intro H;
    try reflexivity; try discriminate.
  - apply andb_true_iff in H as [Hx Hab].
    apply N.eqb_eq in Hx. apply IH in Hab. congruence.
  - injection H as -> ->. rewrite N.eqb_refl. simpl. now apply IH.
Qed.


Lemma lsd_digits_value (f : nat) :
  forall n, (n < 2 ^ N.of_nat f)%N -> lsd_value (lsd_digits (S f) n) = n.
Proof.
  induction f as [|f IH]; intros n Hn.
  - change (2 ^ N.of_nat 0)%N with 1%N in Hn.
    assert (n = 0%N) as -> by lia. reflexivity.
  - change (lsd_digits (S (S f)) n)
      with ((n mod 10)%N :: (if (n / 10 =? 0)%N then [] else lsd_digits (S f) (n / 10)%N)).
    pose proof (N.div_mod n 10 ltac:(lia)) as Hdm.
    destruct (N.eqb_spec (n / 10) 0) as [Hz|Hz].
    + unfold lsd_value; simpl fold_right. lia.
    + change (lsd_value ((n mod 10)%N :: lsd_digits (S f) (n / 10)%N))
        with (n mod 10 + 10 * lsd_value (lsd_digits (S f) (n / 10)%N))%N.
      rewrite IH; [lia|].
      rewrite Nnat.Nat2N.inj_succ, N.pow_succ_r' in Hn.
      apply N.Div0.div_lt_upper_bound. lia.
Qed.

Lemma lsd_digits_small (f : nat) :
  forall n, Forall (fun d => (d < 10)%N) (lsd_digits f n).
Proof.
  induction f as [|f IH]; intro n; simpl; [constructor|].
  constructor; [apply N.mod_lt; lia|].
  destruct (n / 10 =? 0)%N; [constructor|apply IH].
Qed.

Lemma lsd_digits_cons (f : nat) (n : N) : lsd_digits (S f) n <> [].
Proof. simpl. discriminate. Qed.

Lemma str_of_N_digits (n : N) : str_of_N n = map (fun d => (48 + d)%N) (decimal_digits n).
Proof. reflexivity. Qed.

Lemma decimal_digits_small (n : N) : Forall (fun d => (d < 10)%N) (decimal_digits n).
Proof. apply Forall_rev, lsd_digits_small. Qed.

Lemma decimal_digits_cons (n : N) : decimal_digits n <> [].
Proof.
  unfold decimal_digits. intro H.
  apply (f_equal (@rev N)) in H. rewrite rev_involutive in H.
  now apply lsd_digits_cons in H.
Qed.

Lemma horner_rev (ds : list N) :
  forall acc : Z,
    fold_left (fun a d => (10 * a + Z.of_N d)%Z) (rev ds) 0%Z = Z.of_N (lsd_value ds).
Proof.
  intros _. induction ds as [|d ds IH]; [reflexivity|].
  simpl rev. rewrite fold_left_app, IH. cbn [fold_left].
  change (lsd_value (d :: ds)) with (d + 10 * lsd_value ds)%N. lia.
Qed.

Lemma decimal_digits_value (n : N) :
  fold_left (fun a d => (10 * a + Z.of_N d)%Z) (decimal_digits n) 0%Z = Z.of_N n.
Proof.
  unfold decimal_digits. rewrite (horner_rev _ 0%Z), lsd_digits_value; [reflexivity|].
  rewrite Nnat.N2Nat.id. apply N.size_gt.
Qed.

Lemma ascii_digit_offset (d : N) : (d < 10)%N -> ascii_digit (48 + d) = true.
Proof.
  intro Hd. unfold ascii_digit, in_range.
  apply andb_true_iff; split; apply N.leb_le; lia.
Qed.

Lemma read_digits_decimal (ds : list N) :
  Forall (fun d => (d < 10)%N) ds ->
  forall acc, read_digits (map (fun d => (48 + d)%N) ds) acc false
              = Some (fold_left (fun a d => (10 * a + Z.of_N d)%Z) ds acc).
Proof.
  induction 1 as [|d ds Hd _ IH]; intro acc; [reflexivity|].
  cbn [map read_digits].
  rewrite (ascii_digit_offset Hd).
  replace (48 + d - 48)%N with d by lia. apply IH.
Qed.

Lemma to_ascii_decimal_digits (ds : list N) :
  Forall (fun d => (d < 10)%N) ds ->
  map to_ascii_decimal (map (fun d => (48 + d)%N) ds) = map (fun d => (48 + d)%N) ds.
Proof.
  induction 1 as [|d ds Hd _ IH]; [reflexivity|].
  cbn [map]. rewrite IH. f_equal.
  unfold to_ascii_decimal. destruct (N.ltb_spec (48 + d) 127); [reflexivity|lia].
Qed.

Lemma ascii_digit_cases (c : N) :
  ascii_digit c = true ->
  In c [48; 49; 50; 51; 52; 53; 54; 55; 56; 57]%N.
Proof.
  unfold ascii_digit, in_range. intro H.
  apply andb_true_iff in H as [Hlo Hhi].
  apply N.leb_le in Hlo, Hhi. simpl.
  assert (c = 48 \/ c = 49 \/ c = 50 \/ c = 51 \/ c = 52 \/ c = 53 \/ c = 54
          \/ c = 55 \/ c = 56 \/ c = 57)%N by lia.
  intuition auto.
Qed.

Lemma long_from_string_unsigned (c : N) (rest : list N) :
  ascii_digit c = true ->
  long_from_string (c :: rest) = read_digits (c :: rest) 0 false.
Proof.
  intro Hc. apply ascii_digit_cases in Hc. simpl in Hc.
  destruct Hc as [<-|[<-|[<-|[<-|[<-|[<-|[<-|[<-|[<-|[<-|[]]]]]]]]]]];
    cbv - [read_digits]; destruct (read_digits _ _ _); reflexivity.
Qed.

Lemma long_from_string_negative (d : N) (rest : list N) :
  (d < 10)%N ->
  long_from_string (45%N :: (48 + d)%N :: rest)
  = option_map Z.opp (read_digits ((48 + d)%N :: rest) 0 false).
Proof.
  intro Hd. unfold long_from_string.
  change (dropwhile Py_ISSPACE (45%N :: (48 + d)%N :: rest))
    with (45%N :: (48 + d)%N :: rest).
  cbv iota beta.
  rewrite (ascii_digit_offset Hd).
  destruct (read_digits _ _ _); reflexivity.
Qed.

Lemma long_from_string_str_of_N (n : N) :
  long_from_string (map to_ascii_decimal (str_of_N n)) = Some (Z.of_N n)
  /\ long_from_string (map to_ascii_decimal (45%N :: str_of_N n)) = Some (- Z.of_N n)%Z.
Proof.
  rewrite str_of_N_digits.
  pose proof (decimal_digits_small n) as Hs.
  pose proof (decimal_digits_cons n) as Hc.
  pose proof (decimal_digits_value n) as Hv.
  cbn [map]. change (to_ascii_decimal 45) with 45%N.
  rewrite (to_ascii_decimal_digits Hs).
  pose proof (read_digits_decimal Hs 0%Z) as Hr. rewrite Hv in Hr.
  destruct (decimal_digits n) as [|d ds]; [congruence|].
  inversion Hs as [|? ? Hd _]; subst.
  cbn [map] in *. split.
  - rewrite long_from_string_unsigned by (apply ascii_digit_offset; exact Hd). exact Hr.
  - rewrite (long_from_string_negative _ Hd), Hr. reflexivity.
Qed.

(** [int(str(z)) == z] *)
Lemma py_int_str_of_int (z : Z) : py_int (str_of_int z) = Ok z.
Proof.
  unfold py_int, str_of_int.
  destruct (long_from_string_str_of_N (Z.abs_N z)) as [Hp Hn].
  destruct (Z.ltb_spec z 0).
  - rewrite Hn. f_equal. rewrite N2Z.inj_abs_N. lia.
  - rewrite Hp. f_equal. rewrite N2Z.inj_abs_N. lia.
Qed.

Lemma isdigit_ascii_digit (c : N) : ascii_digit c = true -> Py_UNICODE_ISDIGIT c = true.
Proof.
  intro H. unfold Py_UNICODE_ISDIGIT, latin1_digit. rewrite H.
  pose proof H as H'. unfold ascii_digit, in_range in H'.
  apply andb_true_iff in H' as [_ Hhi]. apply N.leb_le in Hhi.
  destruct (N.ltb_spec c 256); [reflexivity|lia].
Qed.

Lemma isdigit_decimal (ds : list N) :
  ds <> [] ->
  Forall (fun d => (d < 10)%N) ds ->
  isdigit (map (fun d => (48 + d)%N) ds) = true.
Proof.
  intros Hne Hs.
  assert (Hall : forallb Py_UNICODE_ISDIGIT (map (fun d => (48 + d)%N) ds) = true).
  { apply forallb_forall. intros c Hin.
    apply in_map_iff in Hin as (d & <- & Hin).
    rewrite Forall_forall in Hs.
    apply isdigit_ascii_digit, ascii_digit_offset, Hs, Hin. }
  destruct ds as [|d ds]; [congruence|]. exact Hall.
Qed.

(** [str(z).isdigit()] holds exactly for [z >= 0]. *)
Lemma isdigit_str_of_int (z : Z) : isdigit (str_of_int z) = (0 <=? z)%Z.
Proof.
  unfold str_of_int.
  destruct (Z.ltb_spec z 0); destruct (Z.leb_spec 0 z); try lia.
  - reflexivity.
  - rewrite str_of_N_digits.
    apply isdigit_decimal; [apply decimal_digits_cons|apply decimal_digits_small].
Qed.

(** ** [sanitize_filename] *)

Lemma re_sub_class_char (cls : N -> bool) (r : N) (s : pystr) :
  re_sub_class cls [r] s = map (fun c => if cls c then r else c) s.
Proof.
  unfold re_sub_class. induction s as [|c s IH]; [reflexivity|].
  simpl. rewrite IH. now destruct (cls c).
Qed.

Lemma py_slice_to_nat (A : Type) (s : list A) (n : nat) :
  py_slice_to s (Z.of_nat n) = firstn n s.
Proof.
  unfold py_slice_to. destruct (Z.leb_spec 0 (Z.of_nat n)); [|lia].
  now rewrite Nat2Z.id.
Qed.

Lemma sanitize_filename_map (s : pystr) (n : nat) :
  sanitize_filename s (Z.of_nat n)
  = firstn n (map (fun c => if filename_char c then c else 95%N) s).
Proof.
  unfold sanitize_filename. rewrite py_slice_to_nat.
  change (lit "_") with [95%N]. rewrite re_sub_class_char.
  f_equal. apply map_ext. intro c. now destruct (filename_char c).
Qed.

(** C9.  [sanitize_filename] keeps the length of its input up to the
    maximum length, keeps every alphanumeric character and every '-',
    '_', '.' and space where it stands, and puts '_' in place of any
    other character; on "María/Pérez*2024" with the default
    maximum it replaces '/' and '*' only. *)
Theorem sanitize_filename_replaces_and_truncates :
  (forall (s : pystr) (n : nat),
      length (sanitize_filename s (Z.of_nat n)) = Nat.min n (length s)
      /\ forall i c, (i < n)%nat -> nth_error s i = Some c ->
           nth_error (sanitize_filename s (Z.of_nat n)) i
           = Some (if Py_UNICODE_ISALNUM c || (c =? 45)%N || (c =? 95)%N
                      || (c =? 46)%N || (c =? 32)%N
                   then c else 95%N))
  /\ sanitize_filename maria_perez DEFAULT_MAXLEN = maria_perez_label.
Proof.
  split; [|vm_compute; reflexivity].
  intros s n. rewrite sanitize_filename_map. split.
  - now rewrite length_firstn, length_map.
  - intros i c Hi Hc.
    rewrite nth_error_firstn. apply Nat.ltb_lt in Hi. rewrite Hi.
    rewrite nth_error_map, Hc. simpl. f_equal.
    unfold filename_char, re_word.
    destruct (Py_UNICODE_ISALNUM c), (c =? 45)%N, (c =? 95)%N, (c =? 46)%N, (c =? 32)%N;
      reflexivity.
Qed.

(** ** [already_done] *)



Lemma ignored_row_guard (r : list pystr) :
  ignored_row r -> (7 <=? length r)%nat && isdigit (nth 0 r []) = false.
Proof.
  intros [Hlen|Hdig].
  - apply andb_false_iff; left. apply Nat.leb_gt. exact Hlen.
  - apply andb_false_iff; right. exact Hdig.
Qed.

Lemma already_done_scan_ignored (page_num row_idx : Z) (r : list pystr)
    (rest : list (list pystr)) :
  ignored_row r ->
  already_done_scan page_num row_idx (r :: rest) = already_done_scan page_num row_idx rest.
Proof. intro H. cbn [already_done_scan]. now rewrite (ignored_row_guard H). Qed.

Lemma LOG_HEADER_ignored : ignored_row LOG_HEADER.
Proof. right. reflexivity. Qed.


Lemma success_forb_spec (page_num row_idx : Z) (e : log_entry) :
  success_forb page_num row_idx e = true <-> success_for page_num row_idx e.
Proof.
  unfold success_forb, success_for.
  rewrite !andb_true_iff, !Z.eqb_eq, pystr_eqb_eq. tauto.
Qed.

Lemma log_row_matches_entry (page_num row_idx : Z) (e : log_entry) :
  log_row_matches page_num row_idx (entry_row e) = Ok (success_forb page_num row_idx e).
Proof.
  unfold log_row_matches, entry_row, log_row, success_forb.
  cbn [py_index nth_error obind].
  rewrite !py_int_str_of_int. cbn [obind].
  destruct (le_page e =? page_num)%Z; [|reflexivity].
  cbn [negb]. rewrite ?py_int_str_of_int. cbn [obind].
  destruct (le_row e =? row_idx)%Z; reflexivity.
Qed.

Lemma already_done_scan_entries (page_num row_idx : Z) (entries : list log_entry) :
  (0 <= page_num)%Z ->
  already_done_scan page_num row_idx (map entry_row entries)
  = Ok (existsb (success_forb page_num row_idx) entries).
Proof.
  intro Hp. induction entries as [|e entries IH]; [reflexivity|].
  cbn [map existsb already_done_scan].
  change (nth 0 (entry_row e) []) with (str_of_int (le_page e)).
  change (length (entry_row e)) with 8%nat.
  rewrite isdigit_str_of_int, log_row_matches_entry.
  cbn [Nat.leb andb].
  destruct (Z.leb_spec 0 (le_page e)) as [Hpos|Hneg].
  - destruct (success_forb page_num row_idx e); [reflexivity|exact IH].
  - rewrite IH. f_equal.
    assert (success_forb page_num row_idx e = false) as ->; [|reflexivity].
    unfold success_forb.
    destruct (Z.eqb_spec (le_page e) page_num); [lia|reflexivity].
Qed.

Lemma already_done_ledger (page_num row_idx : Z) (header : bool)
    (entries : list log_entry) :
  (0 <= page_num)%Z ->
  already_done page_num row_idx
    (Some ((if header then [LOG_HEADER] else []) ++ map entry_row entries))
  = Ok (existsb (success_forb page_num row_idx) entries).
Proof.
  intro Hp. unfold already_done.
  destruct header; cbn [app].
  - rewrite (already_done_scan_ignored _ _ _ LOG_HEADER_ignored).
    now apply already_done_scan_entries.
  - now apply already_done_scan_entries.
Qed.

(** C1.  On a ledger made of the header and of appended entries,
    [already_done] answers true exactly when some entry records a success
    for the key; and then [process_row] returns "skipped" at once, with
    the world (files, ledger, metadata, browser trace) untouched. *)
Theorem idempotent_resume
    (fuel : nat) (sc : script) (page_num row_idx : Z) (dry : bool) (w : world)
    (header : bool) (entries : list log_entry) :
  (0 <= page_num)%Z ->
  LOG_CSV w = Some ((if header then [LOG_HEADER] else []) ++ map entry_row entries) ->
  (already_done page_num row_idx (LOG_CSV w) = Ok true
   <-> exists e, In e entries /\ success_for page_num row_idx e)
  /\ ((exists e, In e entries /\ success_for page_num row_idx e) ->
      process_row fuel sc page_num row_idx dry w
      = Ret (lit "skipped", lit "already_logged") w).
Proof.
  intros Hp Hlog.
  assert (Hiff : already_done page_num row_idx (LOG_CSV w) = Ok true
                 <-> exists e, In e entries /\ success_for page_num row_idx e).
  { rewrite Hlog, already_done_ledger by exact Hp. split.
    - intro H. injection H as H. apply existsb_exists in H as (e & Hin & He).
      exists e. split; [exact Hin|now apply success_forb_spec].
    - intros (e & Hin & He). f_equal. apply existsb_exists.
      exists e. split; [exact Hin|now apply success_forb_spec]. }
  split; [exact Hiff|].
  intro Hex. apply Hiff in Hex.
  unfold process_row, bind, lift. rewrite Hex. reflexivity.
Qed.

(** ** The sections of [process_row] *)

Ltac unfold_m :=
  unfold try_except, bind, call, ret, sleep, lift, append_log, append_metadata_row,
    log_error_with_metadata, new_page, close_page, save_bytes in *.

Ltac simp_w :=
  cbn [LOG_CSV METADATA_CSV OUTPUT_DIR open_pages trace set_log set_metadata set_files
       set_open_pages log_event] in *.

Ltac answer x := destruct x as [[]|?]; simp_w.

Lemma bind_cases (A B : Type) (m : M A) (k : A -> M B) (w : world) :
  bind m k w = match m w with
               | Ret a w' => k a w'
               | Raise e w' => Raise e w'
               | Running => Running
               end.
Proof. reflexivity. Qed.

Lemma quiet_refl (w : world) : quiet w w.
Proof. repeat split. Qed.

Lemma quiet_trans (w1 w2 w3 : world) : quiet w1 w2 -> quiet w2 w3 -> quiet w1 w3.
Proof. unfold quiet. intuition congruence. Qed.

Lemma extract_metadata_from_row_spec (cells : outcome (list (option pystr))) (w : world) :
  match extract_metadata_from_row cells w with
  | Ret _ w' => quiet w w'
  | _ => False
  end.
Proof.
  unfold extract_metadata_from_row, quiet. unfold_m.
  destruct cells; simp_w; repeat split.
Qed.

Lemma click_modal_trigger_spec (sc : script) (p r : Z) (name folio : pystr) (meta : dict)
    (w : world) :
  match click_modal_trigger sc p r name folio meta w with
  | Ret None w' => quiet w w'
  | Ret (Some out) w' =>
      (out = (lit "error", lit "modal_trigger_not_found")
       \/ exists msg, out = (lit "error", lit "modal_click_failed:" ++ msg))
      /\ one_metadata_row w w' (with_result meta [] p r)
  | _ => False
  end.
Proof.
  unfold click_modal_trigger, quiet, one_metadata_row, metadata_after. unfold_m.
  answer (sc_trigger sc); try answer (sc_trigger_again sc);
    try answer (sc_trigger_click sc); repeat split; eauto.
Qed.

Lemma detect_confidential_spec (sc : script) (p r : Z) (name folio : pystr) (meta : dict)
    (w : world) :
  match detect_confidential sc p r name folio meta w with
  | Ret None w' => quiet w w'
  | Ret (Some out) w' =>
      out = (lit "confidential", lit "no_pdf")
      /\ one_metadata_row w w' (with_result meta [] p r)
      /\ closed_and_paced w'
  | Raise _ w' => quiet w w'
  | Running => False
  end.
Proof.
  unfold detect_confidential, quiet, one_metadata_row, metadata_after, closed_and_paced,
    close_attempt.
  unfold_m.
  destruct (sc_confidential sc) as [[]|e]; simp_w.
  - destruct (sc_confidential_visible sc) as [[|]|e]; simp_w.
    + destruct (sc_confidential_close sc) as [[|]|e]; simp_w.
      * destruct (sc_confidential_close_click sc) as [[]|e]; simp_w;
          (split; [reflexivity|split; [reflexivity|]]);
          [exists [Ev_click_confidential_close; Ev_query_confidential_close]
          |exists [Ev_click_confidential_close; Ev_query_confidential_close]];
          eexists; (split; [simpl; tauto|reflexivity]).
      * destruct (sc_confidential_escape sc) as [[]|e]; simp_w;
          (split; [reflexivity|split; [reflexivity|]]);
          [exists [Ev_press_escape; Ev_query_confidential_close]
          |exists [Ev_press_escape; Ev_query_confidential_close]];
          eexists; (split; [simpl; tauto|reflexivity]).
      * split; [reflexivity|split; [reflexivity|]].
        exists [Ev_query_confidential_close]. eexists.
        split; [simpl; tauto|reflexivity].
    + repeat split.
    + destruct (is_timeout e); simp_w; repeat split.
  - destruct (is_timeout e); simp_w; repeat split.
Qed.

Lemma wait_normal_modal_spec (sc : script) (p r : Z) (name folio : pystr) (meta : dict)
    (w : world) :
  match wait_normal_modal sc p r name folio meta w with
  | Ret None w' => quiet w w'
  | Ret (Some out) w' =>
      out = (lit "error", lit "modal_not_visible")
      /\ one_metadata_row w w' (with_result meta [] p r)
  | Raise _ w' => quiet w w'
  | Running => False
  end.
Proof.
  unfold wait_normal_modal, quiet, one_metadata_row, metadata_after. unfold_m.
  destruct (sc_popup sc) as [[]|e]; simp_w; [repeat split|].
  destruct (is_timeout e); simp_w; repeat split.
Qed.

Lemma wait_modal_content_spec (sc : script) (w : world) :
  match wait_modal_content sc w with
  | Ret _ w' => quiet w w'
  | _ => False
  end.
Proof.
  unfold wait_modal_content, quiet. unfold_m.
  destruct (sc_wait_function sc) as [[]|e]; simp_w; repeat split.
Qed.

Lemma resize_modal_spec (sc : script) (w : world) :
  match resize_modal sc w with
  | Ret _ w' => quiet w w'
  | _ => False
  end.
Proof.
  unfold resize_modal, quiet. unfold_m.
  destruct (sc_fit_modal sc) as [[]|e]; simp_w; repeat split.
Qed.

Lemma close_modal_spec (sc : script) (w : world) :
  match close_modal sc w with
  | Ret _ w' =>
      quiet w w' /\ exists closing, close_attempt closing /\ trace w' = closing ++ trace w
  | _ => False
  end.
Proof.
  unfold close_modal, quiet, close_attempt. unfold_m.
  destruct (sc_cerrar sc) as [[|]|e]; simp_w.
  - destruct (sc_cerrar_click sc) as [[]|e]; simp_w;
      (split; [repeat split|]);
      exists [Ev_click_cerrar; Ev_query_cerrar]; (split; [simpl; tauto|reflexivity]).
  - destruct (sc_escape sc) as [[]|e]; simp_w;
      (split; [repeat split|]);
      exists [Ev_press_escape; Ev_query_cerrar]; (split; [simpl; tauto|reflexivity]).
  - split; [repeat split|].
    exists [Ev_query_cerrar]. split; [simpl; tauto|reflexivity].
Qed.

Lemma wait_height_stable_quiet (fuel : nat) (heights : nat -> outcome Z) :
  forall i last_height stable_count w,
    match wait_height_stable fuel heights i last_height stable_count w with
    | Ret _ w' => quiet w w'
    | Raise _ w' => quiet w w'
    | Running => True
    end.
Proof.
  induction fuel as [|fuel IH]; intros i last_height stable_count w;
    cbn [wait_height_stable]; destruct (stable_count <? 3)%Z;
    try apply quiet_refl; try exact I.
  unfold_m. destruct (heights i) as [height|e]; simp_w; [|repeat split].
  destruct (height =? last_height)%Z.
  - specialize (IH (S i) last_height (stable_count + 1)%Z
                  (log_event (Ev_sleep 300) (log_event Ev_body_height w))).
    destruct (wait_height_stable _ _ _ _ _ _); try exact I;
      (eapply quiet_trans; [|exact IH]); repeat split.
  - specialize (IH (S i) height 0%Z
                  (log_event (Ev_sleep 300) (log_event Ev_body_height w))).
    destruct (wait_height_stable _ _ _ _ _ _); try exact I;
      (eapply quiet_trans; [|exact IH]); repeat split.
Qed.

(** *** What survives the capture step *)

Section Keeps.

Variable Inv : world -> Prop.
Hypothesis Inv_event : forall ev w, Inv w -> Inv (log_event ev w).
Hypothesis Inv_log : forall rows w, Inv w -> Inv (set_log rows w).
Hypothesis Inv_pages : forall n w, Inv w -> Inv (set_open_pages n w).

Lemma keeps_ret (A : Type) (a : A) : keeps Inv (ret a).
Proof. intros w Hw. exact Hw. Qed.

Lemma keeps_bind (A B : Type) (m : M A) (k : A -> M B) :
  keeps Inv m -> (forall a, keeps Inv (k a)) -> keeps Inv (bind m k).
Proof.
  intros Hm Hk w Hw. unfold bind. specialize (Hm w Hw).
  destruct (m w) as [a w'|e w'|]; [exact (Hk a w' Hm)|exact Hm|exact Logic.I].
Qed.

Lemma keeps_try (A : Type) (catches : exn -> bool) (m : M A) (h : exn -> M A) :
  keeps Inv m -> (forall e, keeps Inv (h e)) -> keeps Inv (try_except catches m h).
Proof.
  intros Hm Hh w Hw. unfold try_except. specialize (Hm w Hw).
  destruct (m w) as [a w'|e w'|]; [exact Hm| |exact Logic.I].
  destruct (catches e); [exact (Hh e w' Hm)|exact Hm].
Qed.

Lemma keeps_call (A : Type) (ev : event) (answer : outcome A) : keeps Inv (call ev answer).
Proof. intros w Hw. unfold call. destruct answer; apply Inv_event, Hw. Qed.

Lemma keeps_sleep (ms : Z) : keeps Inv (sleep ms).
Proof. intros w Hw. apply Inv_event, Hw. Qed.

Lemma keeps_append_log (p r : Z) (a b c d e f : pystr) : keeps Inv (append_log p r a b c d e f).
Proof. intros w Hw. apply Inv_log, Hw. Qed.

Lemma keeps_wait_height_stable (fuel : nat) (heights : nat -> outcome Z) :
  forall i last_height stable_count,
    keeps Inv (wait_height_stable fuel heights i last_height stable_count).
Proof.
  induction fuel as [|fuel IH]; intros i last_height stable_count;
    cbn [wait_height_stable]; destruct (stable_count <? 3)%Z;
    try apply keeps_ret; [intros w _; exact Logic.I|].
  apply keeps_bind; [apply keeps_call|]. intro height.
  destruct (height =? last_height)%Z;
    (apply keeps_bind; [apply keeps_sleep|intros _; apply IH]).
Qed.

Lemma keeps_new_page (answer : outcome unit) : keeps Inv (new_page answer).
Proof.
  apply keeps_bind; [apply keeps_call|]. intros _ w Hw. apply Inv_pages, Hw.
Qed.

Lemma keeps_close_page (answer : outcome unit) : keeps Inv (close_page answer).
Proof.
  apply keeps_bind; [apply keeps_call|]. intros _ w Hw. apply Inv_pages, Hw.
Qed.

Lemma keeps_capture_pdf (fuel : nat) (sc : script) (p r : Z) (name folio : pystr) :
  keeps Inv (capture_pdf fuel sc p r name folio).
Proof.
  unfold capture_pdf.
  repeat first
    [ apply keeps_new_page | apply keeps_close_page | apply keeps_call
    | apply keeps_sleep | apply keeps_append_log | apply keeps_ret
    | apply keeps_wait_height_stable
    | apply keeps_try; [|intro] | apply keeps_bind; [|intro] ].
Qed.

End Keeps.

Lemma capture_pdf_spec (fuel : nat) (sc : script) (p r : Z) (name folio : pystr) (w : world) :
  match capture_pdf fuel sc p r name folio w with
  | Ret _ w' => METADATA_CSV w' = METADATA_CSV w /\ OUTPUT_DIR w' = OUTPUT_DIR w
  | Raise _ _ => False
  | Running => True
  end.
Proof.
  pose proof (@keeps_capture_pdf
                (fun w' => METADATA_CSV w' = METADATA_CSV w /\ OUTPUT_DIR w' = OUTPUT_DIR w)
                ltac:(intros; assumption) ltac:(intros; assumption)
                ltac:(intros; assumption) fuel sc p r name folio w (conj eq_refl eq_refl))
    as Hk.
  unfold capture_pdf, try_except in *.
  match goal with |- match (match ?m with _ => _ end) with _ => _ end => destruct m as [a w'|e w'|] end;
    [exact Hk| |exact I].
  cbv beta iota. unfold_m. simp_w. exact Hk.
Qed.

Lemma save_pdf_spec (sc : script) (p r : Z) (name folio : pystr) (meta : dict)
    (out_path : pystr) (pdf_bytes : option (list Byte.byte)) (w : world) :
  match save_pdf sc p r name folio meta out_path pdf_bytes w with
  | Ret status w' =>
      (status = lit "success" /\ one_metadata_row w w' (with_result meta out_path p r))
      \/ (status = lit "error" /\ METADATA_CSV w' = METADATA_CSV w)
  | _ => False
  end.
Proof.
  unfold save_pdf, one_metadata_row, metadata_after.
  destruct pdf_bytes as [[|b bs]|]; unfold_m; simp_w; try (right; split; reflexivity).
  destruct (sc_save sc) as [[]|e]; simp_w; [left|right]; split; reflexivity.
Qed.

(** *** The ways out of [process_row] *)

Lemma one_metadata_row_from (w0 w w' : world) (meta : dict) :
  METADATA_CSV w = METADATA_CSV w0 -> one_metadata_row w w' meta -> one_metadata_row w0 w' meta.
Proof. unfold one_metadata_row. intros <- H. exact H. Qed.

Lemma process_row_cases (fuel : nat) (sc : script) (p r : Z) (dry : bool) (w : world) :
  match process_row fuel sc p r dry w with
  | Ret out w' => row_outcome p r w out w'
  | Raise _ w' => LOG_CSV w' = LOG_CSV w /\ METADATA_CSV w' = METADATA_CSV w
  | Running => True
  end.
Proof.
  unfold process_row.
  (* A *)
  rewrite bind_cases. unfold lift at 1.
  destruct (already_done p r (LOG_CSV w)) as [[|]|e]; [apply ro_skipped| |split; reflexivity].
  rewrite bind_cases. unfold call at 1.
  destruct (sc_rows sc) as [nrows|e]; [|split; reflexivity].
  destruct (Z.of_nat nrows <=? r)%Z; [apply ro_out_of_bounds; repeat split|].
  rewrite bind_cases. unfold lift at 1.
  destruct (select_row nrows r) as [[]|e]; [|split; reflexivity].
  set (w1 := log_event Ev_query_rows w).
  assert (Q : quiet w w1) by (repeat split).
  clearbody w1.
  (* B *)
  rewrite bind_cases.
  pose proof (extract_metadata_from_row_spec (sc_cells sc) w1) as H.
  destruct (extract_metadata_from_row (sc_cells sc) w1) as [meta w2| |]; try contradiction.
  pose proof (quiet_trans Q H) as Q2. clear H Q w1.
  cbv zeta.
  set (name_text := get_or meta (lit "nombre") (lit "unknown")).
  set (folio := get_or meta (lit "folio_unico") []).
  (* C *)
  rewrite bind_cases.
  pose proof (click_modal_trigger_spec sc p r name_text folio meta w2) as H.
  destruct (click_modal_trigger sc p r name_text folio meta w2) as [[out|] w3| |];
    try contradiction.
  { destruct H as [Hout Hrow]. apply ro_early_error with (meta := meta).
    - tauto.
    - eapply one_metadata_row_from; [apply Q2|exact Hrow]. }
  pose proof (quiet_trans Q2 H) as Q3. clear H Q2 w2.
  (* D *)
  rewrite bind_cases.
  pose proof (detect_confidential_spec sc p r name_text folio meta w3) as H.
  destruct (detect_confidential sc p r name_text folio meta w3) as [[out|] w4|e w4|];
    try contradiction.
  { destruct H as (-> & Hrow & Hclosed). apply ro_confidential with (meta := meta).
    - eapply one_metadata_row_from; [apply Q3|exact Hrow].
    - exact Hclosed. }
  2:{ pose proof (quiet_trans Q3 H) as Q4. split; apply Q4. }
  pose proof (quiet_trans Q3 H) as Q4. clear H Q3 w3.
  (* E *)
  rewrite bind_cases.
  pose proof (wait_normal_modal_spec sc p r name_text folio meta w4) as H.
  destruct (wait_normal_modal sc p r name_text folio meta w4) as [[out|] w5|e w5|];
    try contradiction.
  { destruct H as (-> & Hrow). apply ro_early_error with (meta := meta).
    - tauto.
    - eapply one_metadata_row_from; [apply Q4|exact Hrow]. }
  2:{ pose proof (quiet_trans Q4 H) as Q5. split; apply Q5. }
  pose proof (quiet_trans Q4 H) as Q5. clear H Q4 w4.
  (* F, G *)
  rewrite bind_cases.
  pose proof (wait_modal_content_spec sc w5) as H.
  destruct (wait_modal_content sc w5) as [[] w6| |]; try contradiction.
  pose proof (quiet_trans Q5 H) as Q6. clear H Q5 w5.
  rewrite bind_cases.
  pose proof (resize_modal_spec sc w6) as H.
  destruct (resize_modal sc w6) as [[] w7| |]; try contradiction.
  pose proof (quiet_trans Q6 H) as Q7. clear H Q6 w6.
  (* H *)
  rewrite bind_cases.
  pose proof (capture_pdf_spec fuel sc p r name_text folio w7) as H.
  destruct (capture_pdf fuel sc p r name_text folio w7) as [pdf_bytes w8| |];
    [|contradiction|exact I].
  assert (M8 : METADATA_CSV w8 = METADATA_CSV w).
  { destruct H as [-> _]. apply Q7. }
  clear H Q7 w7.
  (* I *)
  rewrite bind_cases.
  match goal with
  | |- context [save_pdf sc p r name_text folio meta ?path pdf_bytes w8] =>
      pose proof (save_pdf_spec sc p r name_text folio meta path pdf_bytes w8) as H;
      destruct (save_pdf sc p r name_text folio meta path pdf_bytes w8) as [status w9| |];
      try contradiction;
      set (out_path := path) in *
  end.
  (* J *)
  rewrite bind_cases.
  pose proof (close_modal_spec sc w9) as HJ.
  destruct (close_modal sc w9) as [[] w10| |]; try contradiction.
  destruct HJ as (Q10 & closing & Hclosing & Htrace).
  unfold bind, sleep, ret.
  assert (Hpaced : closed_and_paced (log_event (Ev_sleep ROW_DELAY) w10)).
  { exists closing, (trace w9). split; [exact Hclosing|]. simp_w. now rewrite Htrace. }
  destruct H as [(-> & Hrow)|(-> & Hsame)].
  - apply ro_success with (meta := meta) (out_path := out_path); [|exact Hpaced].
    unfold one_metadata_row in *. simp_w.
    destruct Q10 as (_ & -> & _). rewrite Hrow, M8. reflexivity.
  - apply ro_capture_error; [|exact Hpaced].
    simp_w. destruct Q10 as (_ & -> & _). congruence.
Qed.

(** ** Metadata rows *)





(** ** The wait for a stable height *)

Lemma wait_height_stable_step (fuel : nat) (heights : nat -> Z) (i : nat)
    (last_height stable_count : Z) (w : world) :
  (stable_count < 3)%Z ->
  wait_height_stable (S fuel) (measured heights) i last_height stable_count w
  = wait_height_stable fuel (measured heights) (S i)
      (heights i)
      (if (heights i =? last_height)%Z then (stable_count + 1)%Z else 0%Z)
      (log_event (Ev_sleep 300) (log_event Ev_body_height w)).
Proof.
  intro Hlt. cbn [wait_height_stable].
  destruct (Z.ltb_spec stable_count 3); [|lia].
  unfold bind, call, sleep, measured.
  destruct (Z.eqb_spec (heights i) last_height) as [->|_]; reflexivity.
Qed.

(** The loop counter is the counter of the specification as long as that
    one stays below three. *)
Lemma wait_height_stable_counter (heights : nat -> Z) (n : nat) :
  (forall m, (m < n)%nat -> (counter_after heights m < 3)%Z) ->
  forall fuel w,
    wait_height_stable (n + fuel) (measured heights) 0 0 0 w
    = wait_height_stable fuel (measured heights) n
        (previous_sample heights n) (counter_after heights n) (sampled n w).
Proof.
  induction n as [|n IH]; intros Hlow fuel w; [reflexivity|].
  replace (S n + fuel)%nat with (n + S fuel)%nat by lia.
  rewrite IH by (intros m Hm; apply Hlow; lia).
  rewrite wait_height_stable_step by (apply Hlow; lia).
  reflexivity.
Qed.

Lemma stabilizes_at_counter (heights : nat -> Z) (k : nat) :
  (forall m, (m <= k)%nat -> (counter_after heights m < 3)%Z) ->
  counter_after heights (S k) = 3%Z ->
  stabilizes_at heights k.
Proof.
  intros Hlow Hthree w. split.
  - replace (S k) with (S k + 0)%nat at 1 by lia.
    rewrite wait_height_stable_counter by (intros m Hm; apply Hlow; lia).
    cbn [wait_height_stable]. rewrite Hthree. reflexivity.
  - replace k with (k + 0)%nat at 1 by lia.
    rewrite wait_height_stable_counter by (intros m Hm; apply Hlow; lia).
    cbn [wait_height_stable].
    destruct (Z.ltb_spec (counter_after heights k) 3); [reflexivity|].
    specialize (Hlow k (Nat.le_refl k)). lia.
Qed.

Lemma example_counter_low (m : nat) :
  (m <= 6)%nat -> (counter_after example_heights m < 3)%Z.
Proof.
  intro Hm.
  assert (In m [0; 1; 2; 3; 4; 5; 6]%nat) as Hin by (simpl; lia).
  simpl in Hin.
  destruct Hin as [<-|[<-|[<-|[<-|[<-|[<-|[<-|[]]]]]]]]; vm_compute; reflexivity.
Qed.

(** C3, as amended.  The loop keeps the counter of consecutive samples
    equal to the sample before them (zero again on any change) and
    returns with the first sample that brings it to three; on the heights
    10, 10, 10, 20, 20, 20, 20 that is the sample of index 6, the fourth
    20 in a row, and not an earlier one. *)
Theorem stabilization_sampling :
  (forall (heights : nat -> Z) (k : nat),
      (forall m, (m <= k)%nat -> (counter_after heights m < 3)%Z) ->
      counter_after heights (S k) = 3%Z ->
      stabilizes_at heights k)
  /\ stabilizes_at example_heights 6.
Proof.
  split; [exact stabilizes_at_counter|].
  apply stabilizes_at_counter; [exact example_counter_low|reflexivity].
Qed.

(** With heights that never repeat the loop is still running whatever
    the number of samples it is given. *)
Lemma wait_height_stable_growing (fuel : nat) :
  forall i last_height w,
    (last_height < growing_heights i)%Z ->
    wait_height_stable fuel (measured growing_heights) i last_height 0 w = Running.
Proof.
  induction fuel as [|fuel IH]; intros i last_height w Hlt; [reflexivity|].
  rewrite wait_height_stable_step by lia.
  destruct (Z.eqb_spec (growing_heights i) last_height) as [Heq|_]; [lia|].
  apply IH. unfold growing_heights. lia.
Qed.

(** ** Closing the modal *)

Lemma agree_refl (A : Type) (r : result A) : agree r r.
Proof. destruct r; simpl; auto using quiet_refl. Qed.

Lemma agree_bind (A B : Type) (m : M A) (k1 k2 : A -> M B) (w : world) :
  (forall a w', agree (k1 a w') (k2 a w')) ->
  agree (bind m k1 w) (bind m k2 w).
Proof.
  intro Hk. unfold bind. destruct (m w) as [a w'|e w'|]; [apply Hk| |exact I].
  split; [reflexivity|apply quiet_refl].
Qed.

Lemma detect_confidential_close_answers (sc : script) (ca : close_answers) (p r : Z)
    (name folio : pystr) (meta : dict) (w : world) :
  match detect_confidential (with_close_answers sc ca) p r name folio meta w,
        detect_confidential sc p r name folio meta w with
  | Ret None w1, Ret None w2 => w1 = w2
  | Ret (Some out1) w1, Ret (Some out2) w2 => out1 = out2 /\ quiet w1 w2
  | Raise e1 w1, Raise e2 w2 => e1 = e2 /\ w1 = w2
  | _, _ => False
  end.
Proof.
  unfold detect_confidential, quiet. unfold_m.
  cbn [with_close_answers sc_confidential sc_confidential_visible sc_confidential_close
       sc_confidential_close_click sc_confidential_escape].
  destruct (sc_confidential sc) as [[]|e]; simp_w.
  - destruct (sc_confidential_visible sc) as [[|]|e]; simp_w.
    + destruct (ca_confidential_close ca) as [[|]|e1]; simp_w;
        try destruct (ca_confidential_close_click ca) as [[]|e2]; simp_w;
        try destruct (ca_confidential_escape ca) as [[]|e3]; simp_w;
        destruct (sc_confidential_close sc) as [[|]|e4]; simp_w;
        try destruct (sc_confidential_close_click sc) as [[]|e5]; simp_w;
        try destruct (sc_confidential_escape sc) as [[]|e6]; simp_w;
        repeat split.
    + reflexivity.
    + destruct (is_timeout e); simp_w; [reflexivity|split; reflexivity].
  - destruct (is_timeout e); simp_w; [reflexivity|split; reflexivity].
Qed.

(** The answers to the close attempts change neither what [process_row]
    returns nor the files it leaves. *)
Lemma process_row_close_answers (fuel : nat) (sc : script) (ca : close_answers)
    (p r : Z) (dry : bool) (w : world) :
  agree (process_row fuel (with_close_answers sc ca) p r dry w)
        (process_row fuel sc p r dry w).
Proof.
  unfold process_row.
  change (sc_rows (with_close_answers sc ca)) with (sc_rows sc).
  change (sc_cells (with_close_answers sc ca)) with (sc_cells sc).
  apply agree_bind. intros [|] w1; [apply agree_refl|].
  apply agree_bind. intros nrows w2.
  destruct (Z.of_nat nrows <=? r)%Z; [apply agree_refl|].
  apply agree_bind. intros _ w3.
  apply agree_bind. intros meta w4. cbv zeta.
  set (name_text := get_or meta (lit "nombre") (lit "unknown")).
  set (folio := get_or meta (lit "folio_unico") []).
  change (click_modal_trigger (with_close_answers sc ca))
    with (click_modal_trigger sc).
  apply agree_bind. intros [early|] w5; [apply agree_refl|].
  rewrite !bind_cases.
  pose proof (detect_confidential_close_answers sc ca p r name_text folio meta w5) as H.
  destruct (detect_confidential (with_close_answers sc ca) p r name_text folio meta w5)
    as [[out1|] w6|e1 w6|];
    destruct (detect_confidential sc p r name_text folio meta w5) as [[out2|] w7|e2 w7|];
    try contradiction.
  - exact H.
  - subst w7.
    change (wait_normal_modal (with_close_answers sc ca)) with (wait_normal_modal sc).
    apply agree_bind. intros [early|] w8; [apply agree_refl|].
    change (wait_modal_content (with_close_answers sc ca)) with (wait_modal_content sc).
    apply agree_bind. intros _ w9.
    change (resize_modal (with_close_answers sc ca)) with (resize_modal sc).
    apply agree_bind. intros _ w10.
    change (capture_pdf fuel (with_close_answers sc ca)) with (capture_pdf fuel sc).
    apply agree_bind. intros pdf_bytes w11.
    change (save_pdf (with_close_answers sc ca)) with (save_pdf sc).
    apply agree_bind. intros status w12.
    rewrite !bind_cases.
    pose proof (close_modal_spec (with_close_answers sc ca) w12) as H1.
    pose proof (close_modal_spec sc w12) as H2.
    destruct (close_modal (with_close_answers sc ca) w12) as [[] w13| |]; try contradiction.
    destruct (close_modal sc w12) as [[] w14| |]; try contradiction.
    destruct H1 as [Q1 _]. destruct H2 as [Q2 _].
    unfold bind, sleep, ret, agree, quiet in *. simp_w.
    split; [reflexivity|]. intuition congruence.
  - destruct H as [-> ->]. split; [reflexivity|apply quiet_refl].
Qed.

(** C6, as amended.  When [process_row] returns "success",
    "confidential", or the error of the capture step (note "done"), the
    last things it did were an attempt to close the dialog and the pause
    [ROW_DELAY]; and whatever the browser answers to the close attempts,
    the returned pair and the files are the same. *)
Theorem close_and_pace_after_modal
    (fuel : nat) (sc : script) (page_num row_idx : Z) (dry : bool)
    (w w' : world) (out : pystr * pystr) :
  process_row fuel sc page_num row_idx dry w = Ret out w' ->
  fst out = lit "success" \/ fst out = lit "confidential"
  \/ out = (lit "error", lit "done") ->
  closed_and_paced w'
  /\ forall ca : close_answers,
       agree (process_row fuel (with_close_answers sc ca) page_num row_idx dry w)
             (Ret out w').
Proof.
  intros Hrun Hout. split.
  - pose proof (process_row_cases fuel sc page_num row_idx dry w) as H.
    rewrite Hrun in H.
    destruct H as [|w' Hq|out meta w' Hearly Hrow|meta w' Hrow Hc|meta path w' Hrow Hc
                   |w' Hsame Hc]; try assumption.
    + destruct Hout as [H|[H|H]]; discriminate.
    + destruct Hout as [H|[H|H]]; discriminate.
    + destruct Hearly as [ -> | [ [msg -> ] | -> ] ]; destruct Hout as [H|[H|H]];
        discriminate.
  - intro ca. rewrite <- Hrun. apply process_row_close_answers.
Qed.

(** ** The row loop of [main] *)







(** * Further properties *)

(** ** Invariants of the appends *)

Section Grows.

Variable Inv : world -> Prop.
Variable ok_append : Z -> Z -> pystr -> Prop.
Hypothesis Inv_event : forall ev w, Inv w -> Inv (log_event ev w).
Hypothesis Inv_pages : forall n w, Inv w -> Inv (set_open_pages n w).
Hypothesis Inv_append_log :
  forall p r a b c d st notes,
    ok_append p r st -> keeps Inv (append_log p r a b c d st notes).
Hypothesis Inv_append_metadata : forall meta, keeps Inv (append_metadata_row meta).
Hypothesis Inv_write :
  forall path data w, Inv w -> Inv (set_files ((path, data) :: OUTPUT_DIR w) w).





















End Grows.

(** ** What one call of [process_row] writes *)








(** ** The files only grow *)


Lemma append_only_event (w0 : world) (ev : event) (w : world) :
  append_only w0 w -> append_only w0 (log_event ev w).
Proof. intro H. exact H. Qed.

















(** ** The two CSV files *)

(** X8.  [init_logs] creates the files that are missing, each with its
    header row, and leaves the files that exist as they are; running it
    again changes nothing, and it never changes what [already_done]
    answers. *)
Theorem init_logs_keeps_existing_files (w : world) :
  exists w',
    init_logs w = Ret tt w'
    /\ LOG_CSV w' = Some (match LOG_CSV w with Some rows => rows | None => [LOG_HEADER] end)
    /\ METADATA_CSV w'
       = Some (match METADATA_CSV w with Some rows => rows | None => [METADATA_FIELDS] end)
    /\ OUTPUT_DIR w' = OUTPUT_DIR w
    /\ init_logs w' = Ret tt w'
    /\ forall page_num row_idx,
         already_done page_num row_idx (LOG_CSV w')
         = already_done page_num row_idx (LOG_CSV w).
Proof.
  unfold init_logs.
  destruct w as [[log|] [meta|] files pages tr]; simp_w; cbn [set_log set_metadata];
    eexists; (split; [reflexivity|]); repeat split; intros.
  all: cbn [already_done]; apply (already_done_scan_ignored _ _ _ LOG_HEADER_ignored).
Qed.



(** ** [extract_metadata_from_row] *)

Lemma assign_cells_fields (values : list pystr) :
  map fst (assign_cells (firstn 11 METADATA_FIELDS) values EMPTY_META)
  = firstn 11 METADATA_FIELDS.
Proof.
  do 11 (destruct values as [|? values]; [reflexivity|]). reflexivity.
Qed.

Lemma assign_cells_lookup (values : list pystr) (i : nat) :
  (i < 11)%nat ->
  dict_get (assign_cells (firstn 11 METADATA_FIELDS) values EMPTY_META)
    (nth i METADATA_FIELDS []) (VStr [])
  = VStr (nth i values []).
Proof.
  intro Hi.
  assert (Hin : In i (seq 0 11)) by (apply in_seq; lia).
  cbn [seq In] in Hin.
  destruct Hin as [<-|[<-|[<-|[<-|[<-|[<-|[<-|[<-|[<-|[<-|[<-|[]]]]]]]]]]]];
    do 11 (destruct values as [|? values]; [reflexivity|]); reflexivity.
Qed.

Lemma cell_text_nth (tds : list (option pystr)) (i : nat) :
  nth i (map (fun txt => py_strip match txt with Some t => t | None => [] end) tds) []
  = cell_text tds i.
Proof.
  unfold cell_text. revert i. induction tds as [|td tds IH]; intros [|i]; cbn [map nth nth_error];
    try reflexivity.
  - now destruct td.
  - apply IH.
Qed.

(** X10.  [extract_metadata_from_row] never raises and touches no file.
    The dict it returns has the eleven fields, in order; field [i] holds
    the stripped text of cell [i], and the empty string when the row has
    no such cell, when the cell has no text, or when reading the cells
    raised; cells beyond the eleventh are dropped. *)
Theorem extract_metadata_positional (cells : outcome (list (option pystr))) (w : world) :
  exists meta w',
    extract_metadata_from_row cells w = Ret meta w'
    /\ quiet w w'
    /\ map fst meta = firstn 11 METADATA_FIELDS
    /\ forall i, (i < 11)%nat ->
         dict_get meta (nth i METADATA_FIELDS []) (VStr [])
         = VStr match cells with
                | Ok tds => cell_text tds i
                | Exc _ => []
                end.
Proof.
  unfold extract_metadata_from_row. unfold_m.
  destruct cells as [tds|e]; simp_w; eexists; eexists;
    (split; [reflexivity|]); (split; [repeat split|]).
  - split; [apply assign_cells_fields|].
    intros i Hi. rewrite assign_cells_lookup by exact Hi. now rewrite cell_text_nth.
  - split; [reflexivity|].
    intros i Hi.
    change EMPTY_META with (assign_cells (firstn 11 METADATA_FIELDS) [] EMPTY_META).
    rewrite assign_cells_lookup by exact Hi. now destruct i.
Qed.

(** ** [sanitize_filename] once more *)

Lemma Forall_firstn (A : Type) (P : A -> Prop) (n : nat) (l : list A) :
  Forall P l -> Forall P (firstn n l).
Proof.
  revert l. induction n as [|n IH]; intros [|x l] H; cbn [firstn]; try constructor;
    inversion H; subst; auto.
Qed.

Lemma sanitize_filename_firstn (s : pystr) (maxlen : Z) :
  exists k, sanitize_filename s maxlen
            = firstn k (map (fun c => if filename_char c then c else 95%N) s).
Proof.
  unfold sanitize_filename, py_slice_to.
  change (lit "_") with [95%N]. rewrite re_sub_class_char.
  assert (Hmap : map (fun c => if negb (filename_char c) then 95%N else c) s
                 = map (fun c => if filename_char c then c else 95%N) s).
  { apply map_ext. intro c. now destruct (filename_char c). }
  rewrite Hmap. destruct (0 <=? maxlen)%Z; eexists; reflexivity.
Qed.

Lemma filename_char_replaced (c : N) :
  filename_char (if filename_char c then c else 95%N) = true.
Proof. destruct (filename_char c) eqn:H; [exact H|reflexivity]. Qed.

(** X11.  Whatever the input and the maximum length, the label
    [sanitize_filename] returns is made of word characters, '-', '_',
    '.' and spaces only; in particular it holds no '/' and no backslash,
    so the document stays in the output directory.  Sanitizing a label
    again, with the same non-negative maximum, gives the label back. *)
Theorem sanitize_filename_safe_and_idempotent :
  (forall (s : pystr) (maxlen : Z),
      Forall (fun c => filename_char c = true) (sanitize_filename s maxlen)
      /\ ~ In 47%N (sanitize_filename s maxlen)
      /\ ~ In 92%N (sanitize_filename s maxlen))
  /\ (forall (s : pystr) (n : nat),
         sanitize_filename (sanitize_filename s (Z.of_nat n)) (Z.of_nat n)
         = sanitize_filename s (Z.of_nat n)).
Proof.
  assert (Hsafe : forall s maxlen,
             Forall (fun c => filename_char c = true) (sanitize_filename s maxlen)).
  { intros s maxlen. destruct (sanitize_filename_firstn s maxlen) as [k ->].
    apply Forall_firstn, Forall_forall. intros c Hin.
    apply in_map_iff in Hin as (c0 & <- & _). apply filename_char_replaced. }
  split.
  - intros s maxlen. split; [apply Hsafe|].
    specialize (Hsafe s maxlen). rewrite Forall_forall in Hsafe.
    split; intro Hin; apply Hsafe in Hin; discriminate.
  - intros s n. rewrite (sanitize_filename_map (sanitize_filename s (Z.of_nat n))).
    specialize (Hsafe s (Z.of_nat n)).
    assert (Hid : map (fun c => if filename_char c then c else 95%N)
                    (sanitize_filename s (Z.of_nat n))
                  = sanitize_filename s (Z.of_nat n)).
    { induction Hsafe as [|c l Hc _ IH]; [reflexivity|].
      cbn [map]. now rewrite Hc, IH. }
    rewrite Hid, sanitize_filename_map, firstn_firstn, Nat.min_id. reflexivity.
Qed.

(** ** Pagination *)

Lemma quiet_event (ev : event) (w : world) : quiet w (log_event ev w).
Proof. repeat split. Qed.

Lemma max_page_of_spec (btns : list (outcome pystr)) :
  forall max_page w,
    match max_page_of btns max_page w with
    | Ret v w' =>
        quiet w w' /\ (max_page <= v)%Z /\ Forall readable_label btns
        /\ (forall txt n, In (Ok txt) btns -> label_page txt = Some n -> (n <= v)%Z)
        /\ (v = max_page \/ exists txt, In (Ok txt) btns /\ label_page txt = Some v)
    | Raise _ w' => quiet w w' /\ ~ Forall readable_label btns
    | Running => False
    end.
Proof.
  induction btns as [|b btns IH]; intros max_page w; cbn [max_page_of].
  - unfold ret. split; [apply quiet_refl|]. split; [lia|]. split; [constructor|].
    split; [intros txt n []|now left].
  - rewrite bind_cases. unfold call at 1.
    destruct b as [txt|e].
    2:{ split; [apply quiet_event|]. intro H. inversion H as [|? ? (t & Ht & _) _]; subst.
        discriminate. }
    destruct (isdigit (py_strip txt)) eqn:Hdig.
    + rewrite bind_cases. unfold lift at 1.
      destruct (py_int (py_strip txt)) as [iv|e] eqn:Hint.
      2:{ split; [apply quiet_event|]. intro H.
          inversion H as [|? ? (t & Ht & Hr) _]; subst.
          injection Ht as <-. destruct (Hr Hdig) as [n Hn]. congruence. }
      specialize (IH (if (max_page <? iv)%Z then iv else max_page)
                    (log_event Ev_button_text w)).
      destruct (max_page_of btns _ _) as [v w'|e w'|]; [|destruct IH as [Q Hbad]|exact IH].
      * destruct IH as (Q & Hle & Hall & Hmax & Hwit).
        assert (Hlabel : label_page txt = Some iv).
        { unfold label_page. now rewrite Hdig, Hint. }
        split; [exact Q|]. split; [destruct (Z.ltb_spec max_page iv); lia|].
        split.
        { constructor; [|exact Hall]. exists txt. split; [reflexivity|].
          intros _. now exists iv. }
        split.
        { intros txt' n [Heq|Hin] Hn.
          - injection Heq as <-. rewrite Hlabel in Hn. injection Hn as <-.
            destruct (Z.ltb_spec max_page iv); lia.
          - eapply Hmax; eassumption. }
        destruct Hwit as [Hv|(txt' & Hin & Hl)].
        { destruct (Z.ltb_spec max_page iv).
          - right. exists txt. split; [now left|]. now rewrite Hv.
          - now left. }
        { right. exists txt'. split; [now right|exact Hl]. }
      * split; [exact Q|]. intro H. inversion H; subst. contradiction.
    + specialize (IH max_page (log_event Ev_button_text w)).
      destruct (max_page_of btns _ _) as [v w'|e w'|]; [|destruct IH as [Q Hbad]|exact IH].
      * destruct IH as (Q & Hle & Hall & Hmax & Hwit).
        assert (Hlabel : label_page txt = None).
        { unfold label_page. now rewrite Hdig. }
        split; [exact Q|]. split; [exact Hle|]. split.
        { constructor; [|exact Hall]. exists txt. split; [reflexivity|].
          intro H. congruence. }
        split.
        { intros txt' n [Heq|Hin] Hn.
          - injection Heq as <-. congruence.
          - eapply Hmax; eassumption. }
        destruct Hwit as [Hv|(txt' & Hin & Hl)]; [now left|].
        right. exists txt'. split; [now right|exact Hl].
      * split; [exact Q|]. intro H. inversion H; subst. contradiction.
Qed.

(** X12.  [get_total_pages] never raises, touches no file and answers at
    least 1.  When every button label is read without an exception the
    answer is the largest page number among the labels (1 when there is
    none above it); when the query or the reading of any label raises,
    the answer is 1, whatever the other labels say. *)
Theorem get_total_pages_best_effort
    (buttons : outcome (list (outcome pystr))) (w : world) :
  exists v w',
    get_total_pages buttons w = Ret v w'
    /\ quiet w w'
    /\ (1 <= v)%Z
    /\ (forall btns,
          buttons = Ok btns -> Forall readable_label btns ->
          (forall txt n, In (Ok txt) btns -> label_page txt = Some n -> (n <= v)%Z)
          /\ (v = 1%Z \/ exists txt, In (Ok txt) btns /\ label_page txt = Some v))
    /\ (forall btns, buttons = Ok btns -> ~ Forall readable_label btns -> v = 1%Z)
    /\ (forall e, buttons = Exc e -> v = 1%Z).
Proof.
  unfold get_total_pages, try_except. rewrite bind_cases. unfold call at 1.
  destruct buttons as [btns|e].
  - pose proof (max_page_of_spec btns 1 (log_event Ev_query_paginator w)) as H.
    destruct (max_page_of btns 1 (log_event Ev_query_paginator w)) as [v w'|e w'|];
      [|destruct H as [Q Hbad]|contradiction].
    + destruct H as (Q & Hle & Hall & Hmax & Hwit).
      exists v, w'. split; [reflexivity|]. split; [apply Q|]. split; [exact Hle|].
      split; [|split].
      * intros btns' Heq _. injection Heq as <-. split; assumption.
      * intros btns' Heq Hbad. injection Heq as <-. contradiction.
      * discriminate.
    + exists 1%Z, w'. cbn [ret]. split; [reflexivity|]. split; [apply Q|].
      split; [lia|]. split; [|split].
      * intros btns' Heq Hall. injection Heq as <-. contradiction.
      * reflexivity.
      * discriminate.
  - exists 1%Z, (log_event Ev_query_paginator w). split; [reflexivity|].
    split; [apply quiet_event|]. split; [lia|]. split; [discriminate|].
    split; [discriminate|reflexivity].
Qed.

Lemma event_eq_dec (a b : event) : {a = b} + {a <> b}.
Proof. decide equality. apply Z.eq_dec. Defined.

Lemma click_page_button_spec (btns : list button) (pnum : Z) :
  forall w,
    match click_page_button btns pnum w with
    | Ret _ w' | Raise _ w' =>
        quiet w w'
        /\ (count_occ event_eq_dec (trace w') Ev_click_button
            <= S (count_occ event_eq_dec (trace w) Ev_click_button))%nat
    | Running => False
    end.
Proof.
  induction btns as [|b btns IH]; intro w; cbn [click_page_button].
  - unfold ret. split; [apply quiet_refl|lia].
  - rewrite bind_cases. unfold call at 1.
    destruct (btn_text b) as [txt|e]; [|split; [apply quiet_event|cbn; lia]].
    rewrite bind_cases.
    assert (Hm : (exists m, (if isdigit (py_strip txt)
                             then bind (lift (py_int (py_strip txt)))
                                    (fun iv => ret (iv =? pnum)%Z)
                             else ret false) (log_event Ev_button_text w)
                            = Ret m (log_event Ev_button_text w))
                 \/ exists e, (if isdigit (py_strip txt)
                               then bind (lift (py_int (py_strip txt)))
                                      (fun iv => ret (iv =? pnum)%Z)
                               else ret false) (log_event Ev_button_text w)
                              = Raise e (log_event Ev_button_text w)).
    { destruct (isdigit (py_strip txt)); [|left; eexists; reflexivity].
      unfold bind, lift, ret. destruct (py_int (py_strip txt));
        [left|right]; eexists; reflexivity. }
    destruct Hm as [[m ->]|[e ->]]; [|split; [apply quiet_event|cbn; lia]].
    destruct m.
    + unfold bind, call, sleep.
      destruct (btn_click b) as [[]|e]; simp_w; (split; [repeat split|cbn; lia]).
    + specialize (IH (log_event Ev_button_text w)).
      destruct (click_page_button btns pnum _) as [a w'|e w'|]; try contradiction;
        (destruct IH as [Q Hc]; split; [apply Q|exact Hc]).
Qed.

Lemma goto_page_returns (pg : page_script) (pnum : Z) (w : world) :
  exists w', goto_page pg pnum w = Ret tt w' /\ quiet w w'.
Proof.
  unfold goto_page.
  destruct (pnum =? 1)%Z; [exists w; split; [reflexivity|apply quiet_refl]|].
  unfold try_except. rewrite bind_cases. unfold call at 1.
  destruct (pg_buttons pg) as [btns|e].
  - pose proof (click_page_button_spec btns pnum (log_event Ev_query_paginator w)) as H.
    destruct (click_page_button btns pnum _) as [[] w'|e w'|]; try contradiction;
      destruct H as [Q _]; exists w'; (split; [reflexivity|apply Q]).
  - eexists. split; [reflexivity|apply quiet_event].
Qed.

(** X13.  Going to a page never raises and touches no file; for page 1
    nothing is asked of the browser, and for any other page at most one
    paginator button is clicked. *)
Theorem goto_page_never_fails (pg : page_script) (pnum : Z) (w : world) :
  exists w',
    goto_page pg pnum w = Ret tt w'
    /\ quiet w w'
    /\ (pnum = 1%Z -> w' = w)
    /\ (count_occ event_eq_dec (trace w') Ev_click_button
        <= S (count_occ event_eq_dec (trace w) Ev_click_button))%nat.
Proof.
  unfold goto_page.
  destruct (Z.eqb_spec pnum 1) as [->|Hne].
  - exists w. split; [reflexivity|]. split; [apply quiet_refl|]. split; [reflexivity|lia].
  - unfold try_except. rewrite bind_cases. unfold call at 1.
    destruct (pg_buttons pg) as [btns|e].
    + pose proof (click_page_button_spec btns pnum (log_event Ev_query_paginator w)) as H.
      destruct (click_page_button btns pnum _) as [[] w'|e w'|]; try contradiction;
        destruct H as [Q Hc]; exists w'; (split; [reflexivity|]);
        (split; [apply Q|]); (split; [intro; contradiction|exact Hc]).
    + eexists. split; [reflexivity|]. split; [apply quiet_event|].
      split; [intro; contradiction|cbn; lia].
Qed.

(** X14.  An exception raised while the rows of a page are awaited or
    listed (a timeout of the wait apart) is not caught: it leaves the page
    loop right there, so that no row of that page or of a later page is
    processed and no file is touched. *)
Theorem page_listing_failure_stops_the_run
    (fuel : nat) (site : Z -> page_script) (pnum : Z) (rest : list Z) (dry : bool)
    (delay : Z) (w : world) (e : exn) :
  (pg_rows (site pnum) = Exc e
   /\ (pg_wait_rows (site pnum) = Ok tt
       \/ exists t, pg_wait_rows (site pnum) = Exc t /\ is_timeout t = true))
  \/ (pg_wait_rows (site pnum) = Exc e /\ is_timeout e = false) ->
  exists w1 w',
    goto_page (site pnum) pnum w = Ret tt w1
    /\ main_pages fuel site (pnum :: rest) dry delay w = Raise e w'
    /\ (w' = log_event Ev_query_rows (log_event Ev_wait_rows w1)
        \/ w' = log_event Ev_wait_rows w1)
    /\ quiet w w'.
Proof.
  intros Hfail. cbn [main_pages]. rewrite bind_cases. unfold main_page.
  rewrite bind_cases.
  destruct (goto_page_returns (site pnum) pnum w) as (w1 & Hgoto & Q1).
  rewrite Hgoto. exists w1.
  rewrite bind_cases. unfold try_except, call, ret.
  destruct Hfail as [[Hrows [Hwait|(t & Hwait & Ht)]]|[Hwait Ht]]; rewrite Hwait;
    rewrite ?Ht, ?Hrows; eexists; (split; [reflexivity|]); (split; [reflexivity|]);
    (split; [auto|apply Q1]).
Qed.

(** ** A run over rows that are done *)

Lemma main_rows_all_done (fuel : nat) (pg : page_script) (pnum : Z) (dry : bool)
    (w : world) :
  forall todo r_idx,
    (forall r, (r_idx <= r < r_idx + todo)%nat ->
               already_done pnum (Z.of_nat r) (LOG_CSV w) = Ok true) ->
    main_rows fuel pg pnum r_idx todo dry w = Ret tt w.
Proof.
  intro todo. induction todo as [|todo IH]; intros r_idx Hdone; cbn [main_rows];
    [reflexivity|].
  rewrite bind_cases. unfold main_row, try_except. rewrite bind_cases.
  unfold process_row. rewrite bind_cases. unfold lift at 1.
  rewrite Hdone by lia.
  cbn [ret]. apply IH. intros r Hr. apply Hdone. lia.
Qed.

(** X15.  A run over pages of which every listed row has a success entry
    writes nothing: the ledger, the metadata file and the output
    directory are left as they were, and the run cannot hang, whatever
    the browser answers. *)
Theorem rerun_of_completed_pages_writes_nothing
    (fuel : nat) (site : Z -> page_script) (dry : bool) (delay : Z) (pnums : list Z)
    (w : world) :
  (forall p nrows r,
      In p pnums -> pg_rows (site p) = Ok nrows -> (r < nrows)%nat ->
      already_done p (Z.of_nat r) (LOG_CSV w) = Ok true) ->
  match main_pages fuel site pnums dry delay w with
  | Ret _ w' => quiet w w'
  | Raise _ w' => quiet w w'
  | Running => False
  end.
Proof.
  revert w. induction pnums as [|pnum pnums IH]; intros w Hdone; cbn [main_pages].
  - apply quiet_refl.
  - rewrite bind_cases. unfold main_page. rewrite bind_cases.
    destruct (goto_page_returns (site pnum) pnum w) as (w1 & -> & Q1).
    rewrite bind_cases.
    assert (Hwait : exists r, try_except is_timeout
                                (call Ev_wait_rows (pg_wait_rows (site pnum)))
                                (fun _ => ret tt) w1 = r
                              /\ match r with
                                 | Ret _ w2 | Raise _ w2 => w2 = log_event Ev_wait_rows w1
                                 | Running => False
                                 end).
    { eexists. split; [reflexivity|]. unfold try_except, call, ret.
      destruct (pg_wait_rows (site pnum)) as [[]|t]; [reflexivity|].
      destruct (is_timeout t); reflexivity. }
    destruct Hwait as (res & -> & Hres).
    destruct res as [[] w2|t w2|]; [subst w2|subst w2; apply Q1|contradiction].
    rewrite bind_cases. unfold call at 1.
    destruct (pg_rows (site pnum)) as [nrows|e] eqn:Hrows; [|apply Q1].
    set (w3 := log_event Ev_query_rows (log_event Ev_wait_rows w1)).
    assert (Q3 : quiet w w3) by apply Q1.
    rewrite bind_cases, main_rows_all_done.
    2:{ intros r Hr. destruct Q3 as [-> _].
        apply (Hdone pnum nrows r); [now left|exact Hrows|lia]. }
    cbv beta iota. unfold sleep at 1. cbv beta iota.
    specialize (IH (log_event (Ev_sleep delay) w3)).
    destruct (main_pages fuel site pnums dry delay _) as [a w'|e w'|];
      [eapply quiet_trans; [apply Q3|] | eapply quiet_trans; [apply Q3|] | ];
      apply IH; intros p n r Hin Hn Hr; destruct Q3 as [HL _]; simp_w; rewrite HL;
      (apply (Hdone p n r); [now right|exact Hn|exact Hr]).
Qed.

(** ** The wait, when the height settles *)

Lemma wait_height_stable_locked (heights : nat -> outcome Z) (c : Z) (fuel : nat) :
  forall i stable_count w,
    (forall m, (i <= m)%nat -> heights m = Ok c) ->
    (0 <= stable_count)%Z -> (Z.to_nat (3 - stable_count) <= fuel)%nat ->
    wait_height_stable fuel heights i c stable_count w <> Running.
Proof.
  induction fuel as [|fuel IH]; intros i stable_count w Hconst Hpos Hfuel;
    cbn [wait_height_stable]; destruct (Z.ltb_spec stable_count 3); try discriminate;
    try lia.
  unfold bind, call, sleep. rewrite (Hconst i (Nat.le_refl i)). rewrite Z.eqb_refl.
  apply IH; [intros m Hm; apply Hconst; lia|lia|lia].
Qed.

Lemma wait_height_stable_settles (heights : nat -> outcome Z) (c : Z) (k : nat) :
  forall fuel i last_height stable_count w,
    (forall m, (i + k <= m)%nat -> heights m = Ok c) ->
    (0 <= stable_count)%Z -> (k + 4 <= fuel)%nat ->
    wait_height_stable fuel heights i last_height stable_count w <> Running.
Proof.
  induction k as [|k IH]; intros fuel i last_height stable_count w Hconst Hpos Hfuel;
    (destruct fuel as [|fuel]; [lia|]);
    cbn [wait_height_stable]; destruct (Z.ltb_spec stable_count 3); try discriminate.
  - unfold bind, call, sleep. rewrite (Hconst i) by lia.
    destruct (Z.eqb_spec c last_height) as [<-|_];
      apply (@wait_height_stable_locked heights c);
      try (intros m Hm; apply Hconst; lia); lia.
  - unfold bind, call, sleep.
    destruct (heights i) as [height|e]; [|discriminate].
    destruct (height =? last_height)%Z;
      apply IH; try (intros m Hm; apply Hconst; lia); lia.
Qed.

(** X16.  If the measured height is the same from sample [n] on, the
    wait for a stable height is over (it has returned, or an evaluation
    has raised) within [n + 4] samples; when no evaluation raises it
    returns, having touched no file. *)
Theorem wait_height_stable_ends_when_height_settles
    (heights : nat -> outcome Z) (c : Z) (n fuel : nat) (w : world) :
  (forall m, (n <= m)%nat -> heights m = Ok c) ->
  (n + 4 <= fuel)%nat ->
  wait_height_stable fuel heights 0 0 0 w <> Running
  /\ ((forall m, (m < n)%nat -> exists h, heights m = Ok h) ->
      exists w', wait_height_stable fuel heights 0 0 0 w = Ret tt w' /\ quiet w w').
Proof.
  intros Hconst Hfuel.
  assert (Hend : wait_height_stable fuel heights 0 0 0 w <> Running).
  { apply (@wait_height_stable_settles heights c n); [exact Hconst|lia|exact Hfuel]. }
  split; [exact Hend|].
  intro Hok.
  assert (Hall : forall m, exists h, heights m = Ok h).
  { intro m. destruct (Nat.lt_ge_cases m n) as [Hlt|Hge]; [now apply Hok|].
    exists c. now apply Hconst. }
  assert (Hnoraise : forall fuel' i last_height stable_count w0 e w',
             wait_height_stable fuel' heights i last_height stable_count w0
             <> Raise e w').
  { induction fuel' as [|fuel' IH]; intros i last_height stable_count w0 e w';
      cbn [wait_height_stable]; destruct (stable_count <? 3)%Z; try discriminate.
    unfold bind, call, sleep. destruct (Hall i) as [h ->].
    destruct (h =? last_height)%Z; apply IH. }
  pose proof (wait_height_stable_quiet fuel heights 0 0 0 w) as Hq.
  destruct (wait_height_stable fuel heights 0 0 0 w) as [[] w'|e w'|] eqn:Hrun.
  - exists w'. split; [reflexivity|exact Hq].
  - exfalso. eapply Hnoraise. exact Hrun.
  - contradiction.
Qed.



(** ** The response capture helper *)

Lemma find_app (A : Type) (f : A -> bool) (l1 l2 : list A) :
  find f (l1 ++ l2) = match find f l1 with
                      | Some x => Some x
                      | None => find f l2
                      end.
Proof.
  induction l1 as [|x l1 IH]; [reflexivity|].
  cbn [app find]. destruct (f x); [reflexivity|exact IH].
Qed.

(** X18.  [find_b64] returns the first string of the JSON value, in the
    order of its dict values and list items, that once stripped has more
    than 200 characters, all of them base64 characters or white space;
    it returns that stripped string, and nothing when there is no such
    string. *)
Theorem find_b64_first_candidate :
  forall o : json,
    find_b64 o = find b64_candidate (map py_strip (json_strings o)).
Proof.
  fix IH 1. intros [ | b | z | is_zero | s | items | items]; try reflexivity.
  - cbn [find_b64 json_strings].
    induction items as [|v items IHitems]; [reflexivity|].
    rewrite map_app, find_app, <- IH.
    destruct (find_b64 v); [reflexivity|exact IHitems].
  - cbn [find_b64 json_strings].
    induction items as [|[k v] items IHitems]; [reflexivity|].
    rewrite map_app, find_app, <- IH.
    destruct (find_b64 v); [reflexivity|exact IHitems].
Qed.

(** X19.  [capture_pdf_from_response] never raises.  It answers [None]
    for a missing response and for any status other than 200; bytes it
    returns are either the body of the response or what [b64decode]
    makes of the string [find_b64] finds in the parsed text. *)
Theorem capture_pdf_from_response_sound
    (json_loads : pystr -> outcome json)
    (b64decode : pystr -> outcome (list Byte.byte)) :
  (forall resp, exists r, capture_pdf_from_response json_loads b64decode resp = Ok r)
  /\ capture_pdf_from_response json_loads b64decode None = Ok None
  /\ (forall resp,
         resp_status resp <> 200%Z ->
         capture_pdf_from_response json_loads b64decode (Some resp) = Ok None)
  /\ (forall resp data,
         capture_pdf_from_response json_loads b64decode (Some resp) = Ok (Some data) ->
         resp_status resp = 200%Z
         /\ (resp_body resp = Ok data
             \/ exists txt o b64,
                 resp_text resp = Ok txt /\ json_loads txt = Ok o
                 /\ find_b64 o = Some b64 /\ b64decode b64 = Ok data)).
Proof.
  split; [|split; [reflexivity|split]].
  - intros [resp|]; [|now exists None].
    unfold capture_pdf_from_response.
    match goal with |- exists r, match ?b with _ => _ end = _ => destruct b end;
      eexists; reflexivity.
  - intros resp Hst. unfold capture_pdf_from_response.
    destruct (Z.eqb_spec (resp_status resp) 200); [contradiction|reflexivity].
  - intros resp data. unfold capture_pdf_from_response.
    destruct (Z.eqb_spec (resp_status resp) 200) as [Hst|Hst]; cbn [negb];
      [|discriminate].
    destruct (py_contains (lit "application/pdf") _).
    + destruct (resp_body resp) as [b|e]; cbn [obind]; [|discriminate].
      intro H. injection H as <-. split; [exact Hst|now left].
    + destruct (py_contains (lit "json") _ || py_contains (lit "application/json") _);
        [|discriminate].
      destruct (resp_text resp) as [txt|e]; cbn [obind]; [|discriminate].
      destruct (json_loads txt) as [o|e] eqn:Hj; [|discriminate].
      destruct (json_truthy o); [|discriminate].
      destruct (find_b64 o) as [b64|] eqn:Hf; [|discriminate].
      destruct (b64decode b64) as [d|e] eqn:Hd; [|discriminate].
      intro H. injection H as <-. split; [exact Hst|]. right.
      exists txt, o, b64. repeat split; assumption.
Qed.

(** ** The ledger as a record of what is done *)



(** ** The temporary page *)





End Python.

(** * Runs

    The sample rows, processed with a character database that assigns
    nothing above U+00FF (all their text is ASCII). *)

(** A first run on the calm row leaves the world of the later run, up to
    the browser trace. *)
Lemma calm_run_then_resumed :
  agree (process_row latin1_only 4 calm_script 1 0 false fresh_world)
        (Ret (lit "success", lit "done") resumed_world).
Proof. vm_compute. repeat split. Qed.

Lemma idempotent_resume_witness :
  process_row latin1_only 0 calm_script 1 0 false resumed_world
  = Ret (lit "skipped", lit "already_logged") resumed_world.
Proof.
  destruct (@idempotent_resume latin1_only 0 calm_script 1 0 false resumed_world
              true [done_entry]) as [_ H].
  - lia.
  - reflexivity.
  - apply H. exists done_entry. split; [left; reflexivity|repeat split].
Defined.



(** C3, counterexample.  On 10, 10, 10, 20, 20, 20, 20 the wait does not
    end with the sample of index 5: after six samples the counter is two
    and the loop is still running. *)
Lemma example_not_stable_at_index_5 : ~ stabilizes_at example_heights 5.
Proof.
  intro H. destruct (H fresh_world) as [Hret _].
  vm_compute in Hret. discriminate.
Qed.

Lemma stabilization_sampling_witness : stabilizes_at example_heights 6.
Proof.
  destruct stabilization_sampling as [H _].
  apply H; [exact example_counter_low|reflexivity].
Defined.

(** C4.  On a row whose body grows at every sample, [process_row] is
    still running whatever the number of samples it is allowed. *)
Theorem stabilization_wait_never_ends (fuel : nat) :
  process_row latin1_only fuel growing_script 1 0 false fresh_world = Running.
Proof.
  unfold process_row, growing_script.
  cbv - [wait_height_stable measured growing_heights].
  rewrite wait_height_stable_growing; [reflexivity|].
  unfold growing_heights. simpl. lia.
Qed.

(** C5.  When [tmp_page.pdf] raises, [process_row] returns with the
    temporary page still open: it never called [close]. *)
Theorem temporary_page_left_open_when_pdf_fails :
  exists w',
    process_row latin1_only 4 pdf_fails_script 1 0 false fresh_world
    = Ret (lit "error", lit "done") w'
    /\ open_pages fresh_world = 0%nat
    /\ open_pages w' = 1%nat
    /\ In Ev_new_page (trace w')
    /\ ~ In Ev_close_page (trace w').
Proof.
  eexists. split; [vm_compute; reflexivity|].
  split; [reflexivity|]. split; [reflexivity|]. split.
  - simpl. tauto.
  - simpl. intros H. repeat (destruct H as [H|H]; [discriminate|]). exact H.
Qed.

(** C6, counterexample.  When the dialog does not show, [process_row]
    returns an error without any close attempt and without the pause. *)
Lemma early_error_returns_unpaced :
  exists w',
    process_row latin1_only 4 no_popup_script 1 0 false fresh_world
    = Ret (lit "error", lit "modal_not_visible") w'
    /\ ~ closed_and_paced w'
    /\ ~ In (Ev_sleep ROW_DELAY) (trace w').
Proof.
  eexists. split; [vm_compute; reflexivity|]. split.
  - intros (closing & before & _ & H). simpl in H. discriminate.
  - simpl. intros H. repeat (destruct H as [H|H]; [discriminate|]). exact H.
Qed.

Lemma close_and_pace_after_modal_witness :
  closed_and_paced
    (world_of (process_row latin1_only 4 calm_script 1 0 false fresh_world) fresh_world).
Proof.
  destruct (@close_and_pace_after_modal latin1_only 4 calm_script 1 0 false fresh_world
              (world_of (process_row latin1_only 4 calm_script 1 0 false fresh_world)
                 fresh_world)
              (lit "success", lit "done")) as [H _].
  - vm_compute. reflexivity.
  - left. reflexivity.
  - exact H.
Defined.


Lemma sanitize_filename_replaces_and_truncates_witness :
  nth_error (sanitize_filename latin1_only maria_perez (Z.of_nat 120)) 5 = Some 95%N
  /\ nth_error (sanitize_filename latin1_only maria_perez (Z.of_nat 120)) 3 = Some 237%N.
Proof.
  destruct (sanitize_filename_replaces_and_truncates latin1_only) as [H _].
  destruct (H maria_perez 120%nat) as [_ Hchar].
  split.
  - apply (Hchar 5%nat 47%N); [lia|reflexivity].
  - apply (Hchar 3%nat 237%N); [lia|reflexivity].
Defined.

(** C8.  [process_row] does not look at [dry_run]: with the flag set the
    captured bytes are written to the output directory all the same. *)
Theorem dry_run_still_writes_the_pdf :
  (forall UCD fuel sc page_num row_idx w,
      process_row UCD fuel sc page_num row_idx true w
      = process_row UCD fuel sc page_num row_idx false w)
  /\ exists w',
      process_row latin1_only 4 calm_script 1 0 true fresh_world
      = Ret (lit "success", lit "done") w'
      /\ OUTPUT_DIR fresh_world = []
      /\ OUTPUT_DIR w' = [(lit "rnpdno_pdfs/Ana_F1.pdf", PDF_BYTES)].
Proof.
  split; [reflexivity|].
  eexists. split; [vm_compute; reflexivity|]. split; reflexivity.
Qed.


(** ** Further runs *)





Lemma extract_metadata_positional_witness :
  exists meta w',
    extract_metadata_from_row latin1_only (Ok [Some (lit "F1"); Some (lit " Ana "); None])
      fresh_world
    = Ret meta w'
    /\ dict_get meta (lit "nombre") (VStr []) = VStr (lit "Ana")
    /\ dict_get meta (lit "primer_apellido") (VStr []) = VStr []
    /\ dict_get meta (lit "boletin") (VStr []) = VStr [].
Proof.
  destruct (extract_metadata_positional latin1_only
              (Ok [Some (lit "F1"); Some (lit " Ana "); None]) fresh_world)
    as (meta & w' & Hrun & _ & _ & Hget).
  exists meta, w'. split; [exact Hrun|]. split; [|split].
  - apply (Hget 1%nat). lia.
  - apply (Hget 2%nat). lia.
  - apply (Hget 10%nat). lia.
Defined.

Lemma get_total_pages_best_effort_witness :
  exists v w',
    get_total_pages latin1_only (Ok two_page_paginator) fresh_world = Ret v w'
    /\ (2 <= v)%Z.
Proof.
  destruct (get_total_pages_best_effort latin1_only (Ok two_page_paginator) fresh_world)
    as (v & w' & Hrun & _ & _ & Hall & _).
  exists v, w'. split; [exact Hrun|].
  destruct (Hall two_page_paginator eq_refl) as [Hmax _].
  - apply Forall_cons;
      [exists (lit "1"); split; [reflexivity|intros _; exists 1%Z; vm_compute; reflexivity]|].
    apply Forall_cons;
      [exists (lit " 2 "); split; [reflexivity|intros _; exists 2%Z; vm_compute; reflexivity]|].
    apply Forall_cons; [|apply Forall_nil].
    exists (lit ">"). split; [reflexivity|]. intro H. vm_compute in H. discriminate H.
  - apply (Hmax (lit " 2 ") 2%Z); [right; left; reflexivity|vm_compute; reflexivity].
Defined.

Lemma goto_page_never_fails_witness :
  exists w',
    goto_page latin1_only unlisted_page 1 fresh_world = Ret tt w' /\ w' = fresh_world.
Proof.
  destruct (goto_page_never_fails latin1_only unlisted_page 1 fresh_world)
    as (w' & Hrun & _ & Hsame & _).
  exists w'. split; [exact Hrun|apply Hsame; reflexivity].
Defined.

Lemma page_listing_failure_stops_the_run_witness :
  exists w1 w',
    goto_page latin1_only unlisted_page 1 fresh_world = Ret tt w1
    /\ main_pages latin1_only 4 (fun _ => unlisted_page) [1; 2]%Z false 500 fresh_world
       = Raise target_closed w'
    /\ (w' = log_event Ev_query_rows (log_event Ev_wait_rows w1)
        \/ w' = log_event Ev_wait_rows w1)
    /\ quiet fresh_world w'.
Proof.
  apply (@page_listing_failure_stops_the_run latin1_only 4 (fun _ => unlisted_page) 1
           [2]%Z false 500 fresh_world target_closed).
  left. split; [reflexivity|left; reflexivity].
Defined.

Lemma rerun_of_completed_pages_writes_nothing_witness :
  quiet resumed_world
    (world_of (main_pages latin1_only 4 (fun _ => page_of 1 calm_script) [1]%Z false 500
                 resumed_world)
       resumed_world).
Proof.
  pose proof (@rerun_of_completed_pages_writes_nothing latin1_only 4
                (fun _ => page_of 1 calm_script) false 500 [1]%Z resumed_world) as H.
  destruct (main_pages latin1_only 4 (fun _ => page_of 1 calm_script) [1]%Z false 500
              resumed_world) as [a w'|e w'|]; cbn [world_of].
  - apply H. intros p nrows r [<-|[]] Hn Hr. injection Hn as <-.
    destruct r as [|r]; [vm_compute; reflexivity|lia].
  - apply H. intros p nrows r [<-|[]] Hn Hr. injection Hn as <-.
    destruct r as [|r]; [vm_compute; reflexivity|lia].
  - repeat split.
Defined.

Lemma wait_height_stable_ends_when_height_settles_witness :
  exists w',
    wait_height_stable 7 (fun i => Ok (if (i <? 3)%nat then Z.of_nat i else 640%Z)) 0 0 0
      fresh_world
    = Ret tt w'
    /\ quiet fresh_world w'.
Proof.
  destruct (@wait_height_stable_ends_when_height_settles
              (fun i => Ok (if (i <? 3)%nat then Z.of_nat i else 640%Z))
              640 3 7 fresh_world) as [_ H].
  - intros m Hm. destruct (Nat.ltb_spec m 3); [lia|reflexivity].
  - lia.
  - apply H. intros m _. eexists. reflexivity.
Defined.


Lemma capture_pdf_from_response_sound_witness :
  capture_pdf_from_response latin1_only
    (fun _ => Exc (mkExn ValueError (lit "Expecting value")))
    (fun _ => Exc (mkExn ValueError (lit "Incorrect padding")))
    (Some refused_response)
  = Ok None
  /\ (resp_status pdf_response = 200%Z
      /\ (resp_body pdf_response = Ok PDF_BYTES
          \/ exists txt o b64,
              resp_text pdf_response = Ok txt
              /\ (fun _ : pystr => Exc (mkExn ValueError (lit "Expecting value"))) txt
                 = Ok o
              /\ find_b64 latin1_only o = Some b64
              /\ (fun _ : pystr => Exc (mkExn ValueError (lit "Incorrect padding"))) b64
                 = Ok PDF_BYTES)).
Proof.
  destruct (capture_pdf_from_response_sound latin1_only
              (fun _ => Exc (mkExn ValueError (lit "Expecting value")))
              (fun _ => Exc (mkExn ValueError (lit "Incorrect padding"))))
    as (_ & _ & Hstatus & Hsound).
  split.
  - apply Hstatus. simpl. lia.
  - apply (Hsound pdf_response PDF_BYTES). vm_compute. reflexivity.
Defined.

